(** * deep-research-trail: the research loop of [CustomResearcher]

    A shallow embedding of [src/deep-research-trail.py].  The methods of
    [CustomResearcher] become functions in a small monad that threads the
    state of the outside world, collects the external calls a computation
    performs, and carries Python exceptions.

    Conventions.
    - Every external collaborator (the OpenAI client, [googlesearch.search],
      [requests.get] with the BeautifulSoup selection, [AsyncWebCrawler],
      the clock, the file system) is a field of [Env]: a function of the
      world that answers with a value or with an exception.  Theorems
      quantify over every [Env], that is over every behaviour of the
      collaborators.
    - A tool call's [arguments] are read through the JSON schema of
      [_define_tools]: a field that is present has its declared type, but
      no field is assumed present, and [json.loads] itself may raise.
    - [print], [time.sleep] and [asyncio.sleep] have no effect on the
      values computed and are left out; [await] is sequential. *)

From Stdlib Require Import ZArith String List Ascii PrimFloat Lia.
From stdpp Require Import base list strings gmap pretty.

Local Open Scope string_scope.
Local Open Scope Z_scope.
Local Open Scope list_scope.

(** ** Python values *)

(** The exceptions the code can meet.  [except Exception] catches all of
    them; [except requests.RequestException] only the one of that name. *)
Inductive exn : Type :=
  | JSONDecodeError
  | KeyError (key : string)
  | RequestException (msg : string)
  | Exception (msg : string).

(** A JSON [number] as [json.loads] yields it: an [int] or a [float]. *)
Inductive number : Type :=
  | NInt (z : Z)
  | NFloat (f : float).

(** [x > 0.3] for a Python number.  Python compares an [int] with a
    [float] exactly, so for an integer the test is [z >= 1]; for a float
    it is the IEEE 754 comparison with the double nearest to 0.3, which
    is [0x1.3333333333333p-2]. *)
Definition gt_0_3 (x : number) : bool :=
  match x with
  | NInt z => 0 <? z
  | NFloat f => PrimFloat.ltb 0x1.3333333333333p-2%float f
  end.

(** The arguments object of a tool call, restricted to the properties the
    four schemas of [_define_tools] declare and the code reads.  [None] is
    an absent key.  The suffix [_arg] keeps the keys ["relevance_score"],
    ["summary"], ["relevant_info"] and ["subcomponents"] apart from the
    dataclass fields of the same names. *)
Record tool_args : Type := {
  queries : option (list string);
  relevance_score_arg : option number;
  summary_arg : option string;
  relevant_info_arg : option string;
  subcomponents_arg : option (list string);
  has_sufficient_info : option bool;
  missing_info : option (list string)
}.

(** [tool_call.function]: its [name], and what [json.loads] makes of its
    [arguments] string (the object, or the exception raised). *)
Record tool_call : Type := {
  function_name : string;
  function_arguments : exn + tool_args
}.

(** The part of a chat completion the code looks at,
    [response.choices[0].message.tool_calls]; [None] and the empty list
    are both falsy and both modelled by [[]]. *)
Record response : Type := { tool_calls : list tool_call }.

(** ** The dataclasses *)

Record WebsiteReport : Type := {
  url : string;
  content : string;
  relevance_score : number;
  summary : string;
  relevant_info : string
}.

(** A Python [dict] with string keys: insertion-ordered, one entry per
    key. *)
Definition dict (V : Type) : Type := list (string * V).

Record ResearchReport : Type := {
  query : string;
  subcomponents : list string;
  findings : dict (list WebsiteReport);
  final_report : string;
  timestamp : string;
  sources : list string
}.

(** The dictionary [_research_subcomponent] returns. *)
Record subcomponent_result : Type := {
  subquery : string;
  reports : list WebsiteReport;
  loop_count : Z;
  search_queries_used : list string
}.

(** The two configuration values kept on [self]. *)
Record CustomResearcher : Type := {
  max_loops : Z;
  search_results_per_query : Z
}.

(** ** Dictionaries *)

(** [d[k] = v]: an existing key keeps its position and gets the new
    value, a new key goes to the end. *)
Fixpoint dict_set {V : Type} (k : string) (v : V) (d : dict V) : dict V :=
  match d with
  | [] => [(k, v)]
  | (k', v') :: d' =>
      if String.eqb k' k then (k', v) :: d' else (k', v') :: dict_set k v d'
  end.

Definition dict_keys {V : Type} (d : dict V) : list string := map fst d.
Definition dict_values {V : Type} (d : dict V) : list V := map snd d.

Fixpoint dict_get {V : Type} (k : string) (d : dict V) : option V :=
  match d with
  | [] => None
  | (k', v') :: d' => if String.eqb k' k then Some v' else dict_get k d'
  end.

(** ** External calls *)

(** The [messages] of a function-calling request, by call site, with the
    values interpolated into the text. *)
Inductive prompt : Type :=
  | AnalyzePrompt (query url content : string)
  | GeneratePrompt (subquery : string) (knowledge_gaps search_history : list string)
  | SufficiencyPrompt (subquery : string) (collected : list string)
  | DecomposePrompt (query : string).

(** The user message of a plain completion request, by call site. *)
Inductive text_prompt : Type :=
  | SectionPrompt (subcomponent findings_text : string)
  | SummaryPrompt (query : string) (subcomponents : list string)
      (total_sources : nat) (findings_summary : list string)
  | ConclusionPrompt (query : string) (keys : list string) (total : nat).

(** One entry per external call performed, in order. *)
Inductive event : Type :=
  | EvTools (p : prompt)
  | EvText (p : text_prompt)
  | EvSearch (q : string)
  | EvScrape (q : string)
  | EvCrawl (u : string)
  | EvNow
  | EvWrite (filename text : string).

(** The collaborators.  [W] is the state of everything outside the
    program; each call may change it. *)
Record Env : Type := {
  W : Type;
  (** [self.client.chat.completions.create(..., tools=...)] *)
  chat_tools : prompt -> W -> (exn + response) * W;
  (** [self.client.chat.completions.create(...)] read at
      [.choices[0].message.content], an [Optional[str]] *)
  chat_text : text_prompt -> W -> (exn + option string) * W;
  (** [list(search(query, num_results=n))] *)
  googlesearch : string -> Z -> W -> (exn + list string) * W;
  (** [requests.get] on the results page, [raise_for_status], and the
      [href] of every element of [soup.select("div.g a")] *)
  serp_hrefs : string -> Z -> W -> (exn + list (option string)) * W;
  (** [crawler.arun(url=url)] read as [result.markdown if result else None] *)
  arun : string -> W -> (exn + option string) * W;
  (** [datetime.now()], formatted *)
  now : W -> string * W;
  (** [open(filename, 'w')] and the writes, given the whole text *)
  write_file : string -> string -> W -> (exn + unit) * W
}.

(** ** The monad *)

(** How a computation ends: with a value, with an exception, or not at
    all within the steps allowed. *)
Inductive result (A : Type) : Type :=
  | Ok (a : A)
  | Raised (e : exn)
  | OutOfFuel.
Arguments Ok {A} a.
Arguments Raised {A} e.
Arguments OutOfFuel {A}.

Section Researcher.

Context (E : Env).

(** A computation takes the world and gives its end, the new world and
    the external calls it made. *)
Definition M (A : Type) : Type := W E -> result A * W E * list event.

Definition ret {A : Type} (a : A) : M A := fun w => (Ok a, w, []).

Definition raise {A : Type} (e : exn) : M A := fun w => (Raised e, w, []).

Definition bind {A B : Type} (m : M A) (f : A -> M B) : M B :=
  fun w =>
    match m w with
    | (Ok a, w1, t1) =>
        match f a w1 with
        | (r, w2, t2) => (r, w2, t1 ++ t2)
        end
    | (Raised e, w1, t1) => (Raised e, w1, t1)
    | (OutOfFuel, w1, t1) => (OutOfFuel, w1, t1)
    end.

(** [try: m except Exception: h] *)
Definition try_except {A : Type} (m : M A) (h : exn -> M A) : M A :=
  fun w =>
    match m w with
    | (Raised e, w1, t1) =>
        match h e w1 with
        | (r, w2, t2) => (r, w2, t1 ++ t2)
        end
    | other => other
    end.

(** One external call: ask the collaborator, note the event. *)
Definition external {A : Type} (ev : event) (f : W E -> (exn + A) * W E) : M A :=
  fun w =>
    match f w with
    | (inr a, w1) => (Ok a, w1, [ev])
    | (inl e, w1) => (Raised e, w1, [ev])
    end.

End Researcher.

Arguments ret {E A} a.
Arguments raise {E A} e.
Arguments bind {E A B} m f.
Arguments try_except {E A} m h.
Arguments external {E A} ev f.

Notation "x <- m ;; k" := (bind m (fun x => k))
  (at level 100, m at next level, right associativity).

(** [for x in xs: s = body x s] *)
Fixpoint for_in {E : Env} {A S : Type} (xs : list A) (s : S) (body : A -> S -> M E S) : M E S :=
  match xs with
  | [] => ret s
  | x :: rest => s1 <- body x s ;; for_in rest s1 body
  end.

(** ** Text helpers *)

Definition nl : string := String (ascii_of_nat 10) EmptyString.
Definition dq : string := String (ascii_of_nat 34) EmptyString.

(** [sep.join(parts)] *)
Definition join (sep : string) (parts : list string) : string := String.concat sep parts.

(** [s[:n]] *)
Definition prefix_of (n : Z) (s : string) : string := substring 0 (Z.to_nat n) s.

(** [s.startswith("http")] *)
Definition startswith_http (s : string) : bool := String.prefix "http" s.

(** The truth value of an [Optional[str]]: [None] and [""] are falsy. *)
Definition truthy (o : option string) : bool :=
  match o with
  | Some s => negb (String.eqb s "")
  | None => false
  end.

(** [sum(len(v) for v in findings.values())] *)
Definition total_len {A : Type} (d : dict (list A)) : nat :=
  fold_right Nat.add 0%nat (map (@length A) (dict_values d)).

(** ** The methods of [CustomResearcher] *)

Section Methods.

Context {E : Env} (self : CustomResearcher).

Definition _call_openai_with_tools (messages : prompt) : M E response :=
  external (EvTools messages) (chat_tools E messages).

(** [json.loads(tool_call.function.arguments)] *)
Definition json_loads (tc : tool_call) : M E tool_args :=
  match function_arguments tc with
  | inl e => raise e
  | inr args => ret args
  end.

(** [args[key]] *)
Definition subscript {A : Type} (key : string) (field : option A) : M E A :=
  match field with
  | Some v => ret v
  | None => raise (KeyError key)
  end.

Definition _crawl_website (url : string) : M E (option string) :=
  try_except (external (EvCrawl url) (arun E url)) (fun _ => ret None).

(** The loop over [soup.select("div.g a")] in [_scrape_google_serp]. *)
Fixpoint links_loop (hrefs : list (option string)) (links : list string) : list string :=
  match hrefs with
  | [] => links
  | href :: rest =>
      let links1 :=
        match href with
        | Some h => if truthy href && startswith_http h then links ++ [h] else links
        | None => links
        end in
      if Z.of_nat (length links1) >=? search_results_per_query self
      then links1
      else links_loop rest links1
  end.

Definition _scrape_google_serp (query : string) : M E (list string) :=
  try_except
    (hrefs <- external (EvScrape query)
                (serp_hrefs E query (search_results_per_query self)) ;;
     ret (links_loop hrefs []))
    (fun e =>
       match e with
       | RequestException _ => ret []
       | _ => raise e
       end).

Definition _google_search (query : string) : M E (list string) :=
  try_except
    (external (EvSearch query)
       (googlesearch E query (search_results_per_query self)))
    (fun _ => _scrape_google_serp query).

(** The report returned when the answer carries no usable tool call. *)
Definition default_report (url content : string) : WebsiteReport :=
  {| url := url; content := content; relevance_score := NInt 0;
     summary := ""; relevant_info := "" |}.

Definition _analyze_website_content (url content query : string) : M E WebsiteReport :=
  response <- _call_openai_with_tools
                (AnalyzePrompt query url (prefix_of 10000 content)) ;;
  match tool_calls response with
  | tool_call :: _ =>
      if String.eqb (function_name tool_call) "analyze_website_relevance" then
        args <- json_loads tool_call ;;
        score <- subscript "relevance_score" (relevance_score_arg args) ;;
        summ <- subscript "summary" (summary_arg args) ;;
        info <- subscript "relevant_info" (relevant_info_arg args) ;;
        ret {| url := url; content := content; relevance_score := score;
               summary := summ; relevant_info := info |}
      else ret (default_report url content)
  | [] => ret (default_report url content)
  end.

(** *** [_research_subcomponent] *)

(** The body of [for url in urls[:3]]. *)
Definition visit_url (subquery url : string) (all_reports : list WebsiteReport)
  : M E (list WebsiteReport) :=
  content <- _crawl_website url ;;
  if truthy content then
    report <- _analyze_website_content url (default "" content) subquery ;;
    if gt_0_3 (relevance_score report)
    then ret (all_reports ++ [report])
    else ret all_reports
  else ret all_reports.

(** The body of [for search_query in search_queries]. *)
Definition run_query (subquery search_query : string) (all_reports : list WebsiteReport)
  : M E (list WebsiteReport) :=
  urls <- _google_search search_query ;;
  for_in (take 3 urls) all_reports (visit_url subquery).

(** The variables of the [while] loop; [count] is [loop_count]. *)
Record loop_vars : Type := {
  all_reports : list WebsiteReport;
  knowledge_gaps : list string;
  search_history : list string;
  count : Z
}.

(** How one pass through the loop body ends: at a [break], or at its
    last statement. *)
Inductive pass : Type :=
  | Break (v : loop_vars)
  | Next (v : loop_vars).

Definition loop_body (subquery : string) (v : loop_vars) : M E pass :=
  response <- _call_openai_with_tools
                (GeneratePrompt subquery (knowledge_gaps v) (search_history v)) ;;
  match tool_calls response with
  | [] => ret (Break v)
  | tool_call :: _ =>
      if negb (String.eqb (function_name tool_call) "generate_search_queries")
      then ret (Break v)
      else
        args <- json_loads tool_call ;;
        let search_queries := default [] (queries args) in
        let history := search_history v ++ search_queries in
        found <- for_in search_queries (all_reports v) (run_query subquery) ;;
        response <- _call_openai_with_tools
                      (SufficiencyPrompt subquery (map relevant_info found)) ;;
        let unchanged :=
          {| all_reports := found; knowledge_gaps := knowledge_gaps v;
             search_history := history; count := count v |} in
        match tool_calls response with
        | tool_call :: _ =>
            if String.eqb (function_name tool_call) "create_final_report" then
              args <- json_loads tool_call ;;
              if default false (has_sufficient_info args)
              then ret (Break unchanged)
              else ret (Next {| all_reports := found;
                                knowledge_gaps := default [] (missing_info args);
                                search_history := history;
                                count := count v + 1 |})
            else ret (Next {| all_reports := found;
                              knowledge_gaps := knowledge_gaps v;
                              search_history := history;
                              count := count v + 1 |})
        | [] => ret (Next {| all_reports := found;
                             knowledge_gaps := knowledge_gaps v;
                             search_history := history;
                             count := count v + 1 |})
        end
  end.

(** [while loop_count < self.max_loops: ...], at most [fuel] passes. *)
Fixpoint while_loop (fuel : nat) (subquery : string) (v : loop_vars) : M E loop_vars :=
  if count v <? max_loops self then
    match fuel with
    | O => fun w => (OutOfFuel, w, [])
    | S fuel' =>
        p <- loop_body subquery v ;;
        match p with
        | Break v1 => ret v1
        | Next v1 => while_loop fuel' subquery v1
        end
    end
  else ret v.

Definition _research_subcomponent (fuel : nat) (subquery : string) (loop_count : Z)
  : M E subcomponent_result :=
  v <- while_loop fuel subquery
         {| all_reports := []; knowledge_gaps := []; search_history := [];
            count := loop_count |} ;;
  ret {| subquery := subquery; reports := all_reports v;
         loop_count := count v; search_queries_used := search_history v |}.

(** *** Report texts *)

Definition findings_entry (r : WebsiteReport) : string :=
  "Source: " +:+ url r +:+ nl +:+
  "Summary: " +:+ summary r +:+ nl +:+
  "Key Information: " +:+ relevant_info r.

Definition fallback_finding (r : WebsiteReport) : string :=
  "- " +:+ prefix_of 200 (relevant_info r) +:+ "... (Source: " +:+ url r +:+ ")".

(** The text returned by the [except] branch of
    [_generate_subcomponent_report]. *)
Definition fallback_report (subcomponent : string) (reports : list WebsiteReport) : string :=
  "## Analysis of " +:+ subcomponent +:+ nl +:+ nl +:+
  "    Based on " +:+ pretty (length reports) +:+ " sources analyzed:" +:+ nl +:+ nl +:+
  "    ### Key Findings:" +:+ nl +:+
  "    " +:+ join nl (map fallback_finding (take 5 reports)).

(** The content of the answer is returned as it is, [None] included. *)
Definition _generate_subcomponent_report (subcomponent : string)
    (reports : list WebsiteReport) : M E (option string) :=
  try_except
    (let findings_text := join (nl +:+ nl) (map findings_entry (take 10 reports)) in
     external (EvText (SectionPrompt subcomponent findings_text))
       (chat_text E (SectionPrompt subcomponent findings_text)))
    (fun _ => ret (Some (fallback_report subcomponent reports))).

(** [f"{content}"]: [None] is formatted as ["None"]. *)
Definition format_content (content : option string) : string := default "None" content.

Definition summary_line (item : string * list WebsiteReport) : string :=
  "- " +:+ item.1 +:+ ": " +:+ pretty (length item.2) +:+ " relevant sources found".

Definition nonempty {A : Type} (l : list A) : bool :=
  match l with
  | [] => false
  | _ :: _ => true
  end.

(** The text returned by the [except] branch of
    [_generate_executive_summary]. *)
Definition fallback_summary (query : string) (subcomponents : list string)
    (total_sources : nat) : string :=
  "## Executive Summary" +:+ nl +:+ nl +:+
  "    This research report examines " +:+ dq +:+ query +:+ dq +:+
  " through a comprehensive analysis of " +:+ pretty total_sources +:+
  " sources. The research was structured around " +:+
  pretty (length subcomponents) +:+
  " key areas to ensure thorough coverage of the topic. Each area was investigated through targeted searches and careful analysis of relevant sources." +:+
  nl +:+ nl +:+
  "    The following sections provide detailed findings for each research component, offering insights, trends, and key discoveries from the analyzed sources." +:+
  nl +:+ "    ".

Definition _generate_executive_summary (query : string) (subcomponents : list string)
    (total_sources : nat) (findings : dict (list WebsiteReport)) : M E string :=
  try_except
    (let findings_summary :=
       map summary_line (filter (fun item => nonempty item.2 = true) findings) in
     content <- external
                  (EvText (SummaryPrompt query subcomponents total_sources findings_summary))
                  (chat_text E (SummaryPrompt query subcomponents total_sources findings_summary)) ;;
     ret ("## Executive Summary" +:+ nl +:+ nl +:+ format_content content +:+ nl))
    (fun _ => ret (fallback_summary query subcomponents total_sources)).

(** The text returned by the [except] branch of [_generate_conclusion]. *)
Definition fallback_conclusion (query : string) (findings : dict (list WebsiteReport))
  : string :=
  nl +:+ "## Conclusion" +:+ nl +:+ nl +:+
  "    This comprehensive research into " +:+ dq +:+ query +:+ dq +:+
  " has revealed significant insights across multiple dimensions. The analysis of " +:+
  pretty (total_len findings) +:+
  " sources provides a robust foundation for understanding the current state and future trajectory of this topic." +:+
  nl +:+ nl +:+
  "    The findings demonstrate clear patterns of innovation and development, with implications for both immediate applications and long-term strategic planning. As this field continues to evolve, ongoing monitoring and research will be essential to stay current with emerging trends and opportunities." +:+
  nl +:+ "    ".

Definition _generate_conclusion (query : string) (findings : dict (list WebsiteReport))
    (subcomponent_reports : dict (option string)) : M E string :=
  try_except
    (content <- external
                  (EvText (ConclusionPrompt query (dict_keys findings) (total_len findings)))
                  (chat_text E (ConclusionPrompt query (dict_keys findings) (total_len findings))) ;;
     ret (nl +:+ "## Conclusion" +:+ nl +:+ nl +:+ format_content content +:+ nl))
    (fun _ => ret (fallback_conclusion query findings)).

(** [for i, source in enumerate(report.sources, 1)] *)
Definition source_lines (sources : list string) : list string :=
  imap (fun i source => pretty (S i) +:+ ". " +:+ source +:+ nl) sources.

Definition _save_report (report : ResearchReport) : M E unit :=
  stamp <- external EvNow (fun w => let (t, w1) := now E w in (inr t, w1)) ;;
  let text :=
    final_report report +:+ nl +:+ nl +:+ "## Sources" +:+ nl +:+
    join "" (source_lines (sources report)) +:+
    nl +:+ nl +:+ "*Report generated on: " +:+ timestamp report +:+ "*" in
  external (EvWrite ("research_report_" +:+ stamp +:+ ".md") text)
    (write_file E ("research_report_" +:+ stamp +:+ ".md") text).

(** *** [research] *)

Definition placeholder : string :=
  "No relevant information found for this topic." +:+ nl.

(** The three parts appended for one entry of [subcomponent_reports]. *)
Definition section_parts (item : string * string) : list string :=
  [nl +:+ "### " +:+ item.1 +:+ nl; item.2; nl].

Definition final_report_parts (executive_summary : string)
    (subcomponent_reports : dict string) (conclusion : string) : list string :=
  ["# Research Report" +:+ nl +:+ nl; executive_summary;
   nl +:+ "## Detailed Findings" +:+ nl]
  ++ flat_map section_parts subcomponent_reports
  ++ [conclusion].

(** The subcomponents chosen from the answer to the decomposition call. *)
Definition decomposition (query : string) (response : response) : M E (list string) :=
  match tool_calls response with
  | tool_call :: _ =>
      if String.eqb (function_name tool_call) "decompose_query" then
        args <- json_loads tool_call ;;
        ret (default [query] (subcomponents_arg args))
      else ret [query]
  | [] => ret [query]
  end.

(** The body of [for subcomponent in subcomponents], on the pair
    [(all_findings, subcomponent_reports)]. *)
Definition research_one (fuel : nat) (subcomponent : string)
    (acc : dict (list WebsiteReport) * dict (option string))
  : M E (dict (list WebsiteReport) * dict (option string)) :=
  result <- _research_subcomponent fuel subcomponent 0 ;;
  let all_findings := dict_set subcomponent (reports result) acc.1 in
  if nonempty (reports result) then
    subcomponent_report <- _generate_subcomponent_report subcomponent (reports result) ;;
    ret (all_findings, dict_set subcomponent subcomponent_report acc.2)
  else ret (all_findings, dict_set subcomponent (Some placeholder) acc.2).

(** ["".join(final_report_parts)] takes [str] parts only: a section that
    is [None] makes it raise [TypeError].  [section_texts] gives the
    sections as strings, or that exception. *)
Fixpoint section_texts (subcomponent_reports : dict (option string)) : exn + dict string :=
  match subcomponent_reports with
  | [] => inr []
  | (subcomponent, Some report) :: rest =>
      match section_texts rest with
      | inr sections => inr ((subcomponent, report) :: sections)
      | inl e => inl e
      end
  | (_, None) :: _ => inl (Exception "TypeError")
  end.

(** [all_sources], before [list(set(...))]. *)
Definition all_sources (all_findings : dict (list WebsiteReport)) : list string :=
  flat_map (map url) (dict_values all_findings).

(** [list(set(xs))]: the elements of the set, in an order the set picks. *)
Definition list_set (xs : list string) : list string :=
  elements (list_to_set xs : gset string).

Definition research (fuel : nat) (query : string) : M E ResearchReport :=
  response <- _call_openai_with_tools (DecomposePrompt query) ;;
  subcomponents <- decomposition query response ;;
  acc <- for_in subcomponents ([], []) (research_one fuel) ;;
  let all_findings := acc.1 in
  let subcomponent_reports := acc.2 in
  let total_sources := total_len all_findings in
  executive_summary <-
    _generate_executive_summary query subcomponents total_sources all_findings ;;
  conclusion <- _generate_conclusion query all_findings subcomponent_reports ;;
  sections <- match section_texts subcomponent_reports with
              | inl e => raise e
              | inr sections => ret sections
              end ;;
  let final_report :=
    join "" (final_report_parts executive_summary sections conclusion) in
  stamp <- external EvNow (fun w => let (t, w1) := now E w in (inr t, w1)) ;;
  let research_report :=
    {| query := query; subcomponents := subcomponents; findings := all_findings;
       final_report := final_report; timestamp := stamp;
       sources := list_set (all_sources all_findings) |} in
  _ <- _save_report research_report ;;
  (* the closing [print] formats [datetime.now()] once more *)
  _ <- external EvNow (fun w => let (t, w1) := now E w in (inr t, w1)) ;;
  ret research_report.

End Methods.

(** ** Reading the record of external calls *)

(** The URLs fetched, in order. *)
Definition crawled (t : list event) : list string :=
  omap (fun e => match e with EvCrawl u => Some u | _ => None end) t.

(** The queries handed to [_google_search], in order. *)
Definition searched (t : list event) : list string :=
  omap (fun e => match e with EvSearch q => Some q | _ => None end) t.

(** The query-generation requests, each with the search history it was
    given. *)
Definition generated (t : list event) : list (list string) :=
  omap (fun e => match e with
                 | EvTools (GeneratePrompt _ _ h) => Some h
                 | _ => None
                 end) t.

(** The item passed the test [report.relevance_score > 0.3]. *)
Definition accepted (r : WebsiteReport) : Prop := gt_0_3 (relevance_score r) = true.

(** ** Specification vocabulary *)

(** [sat m P]: from every world, the end [r] and the calls [t] of [m]
    satisfy [P r t]. *)
Definition sat {E : Env} {A : Type} (m : M E A) (P : result A -> list event -> Prop) : Prop :=
  forall w, match m w with (r, _, t) => P r t end.

(** [returns m Q]: whenever [m] ends with a value, the value satisfies [Q]. *)
Definition returns {E : Env} {A : Type} (m : M E A) (Q : A -> Prop) : Prop :=
  sat m (fun r _ => forall a, r = Ok a -> Q a).

(** The first tool call of an answer is a call of [name]. *)
Definition first_call_is (name : string) (resp : response) : bool :=
  match tool_calls resp with
  | tc :: _ => String.eqb (function_name tc) name
  | [] => false
  end.

(** [d[k] = ...] on the keys of [d]. *)
Definition add_key (acc : list string) (k : string) : list string :=
  if bool_decide (k ∈ acc) then acc else acc ++ [k].

(** The order in which a [dict] receives the keys [ks]: each at its first
    occurrence. *)
Definition first_seen (ks : list string) : list string := fold_left add_key ks [].

(** [grown reports reports' t]: [reports'] extends [reports] by items that
    passed the threshold, each fetched by its own crawl among the calls [t]. *)
Definition grown (reports reports' : list WebsiteReport) (t : list event) : Prop :=
  exists acc, reports' = reports ++ acc
              /\ Forall accepted acc
              /\ sublist (map url acc) (crawled t).

(** What every pass over one URL or one query guarantees. *)
Definition quiet_growth (queries : list string) (reports : list WebsiteReport)
    (r : result (list WebsiteReport)) (t : list event) : Prop :=
  r <> OutOfFuel
  /\ generated t = []
  /\ forall reports', r = Ok reports' -> searched t = queries /\ grown reports reports' t.

(** The variables a pass hands on. *)
Definition vars_of (p : pass) : loop_vars :=
  match p with
  | Break v => v
  | Next v => v
  end.

(** From [v] to [v1] over the calls [t]: evidence grows by accepted items,
    and the history grows by exactly the queries searched. *)
Definition progress (v v1 : loop_vars) (t : list event) : Prop :=
  grown (all_reports v) (all_reports v1) t
  /\ search_history v1 = search_history v ++ searched t.

(** What one pass through the loop body guarantees. *)
Definition body_post (v : loop_vars) (r : result pass) (t : list event) : Prop :=
  r <> OutOfFuel
  /\ generated t = [search_history v]
  /\ forall p, r = Ok p ->
       count (vars_of p) = match p with Break _ => count v | Next _ => count v + 1 end
       /\ progress v (vars_of p) t.

(** What the loop guarantees when entered with [v] and [fuel] passes allowed. *)
Definition loop_post (self : CustomResearcher) (fuel : nat) (v : loop_vars) (r : result loop_vars)
    (t : list event) : Prop :=
  (length (generated t) <= Z.to_nat (max_loops self - count v))%nat
  /\ ((Z.to_nat (max_loops self - count v) <= fuel)%nat -> r <> OutOfFuel)
  /\ forall v1, r = Ok v1 ->
       count v <= count v1 <= Z.max (count v) (max_loops self)
       /\ progress v v1 t.

(** The two dictionaries of [research] agree: the same keys in the same
    order, and the placeholder wherever the findings are empty. *)
Definition consistent (acc : dict (list WebsiteReport) * dict (option string)) : Prop :=
  dict_keys acc.2 = dict_keys acc.1
  /\ forall s, dict_get s acc.1 = Some [] -> dict_get s acc.2 = Some (Some placeholder).

(** How [research] puts a report together: the text is the title, a
    summary, one section per entry of [sections] and a conclusion; the
    sections and the findings have the subcomponents as keys, each at its
    first occurrence; [sources] is the set of the URLs in the findings. *)
Definition assembled (rr : ResearchReport) : Prop :=
  exists sections executive_summary conclusion,
    final_report rr = join "" (final_report_parts executive_summary sections conclusion)
    /\ dict_keys sections = first_seen (subcomponents rr)
    /\ dict_keys (findings rr) = first_seen (subcomponents rr)
    /\ (forall s, dict_get s (findings rr) = Some [] ->
                  dict_get s sections = Some placeholder)
    /\ sources rr = list_set (all_sources (findings rr)).

(** ** Scripted collaborators *)

(** A world that only counts the function-calling requests made so far.
    [tools] answers a request from its prompt and that count, [results]
    answers a search and [page] a fetch. *)
Definition scripted (tools : prompt -> nat -> exn + response)
    (results : string -> exn + list string) (page : string -> option string) : Env :=
  {| W := nat;
     chat_tools := fun p n => (tools p n, S n);
     chat_text := fun _ n => (inr (Some "text"), n);
     googlesearch := fun q _ n => (results q, n);
     serp_hrefs := fun _ _ n => (inr [], n);
     arun := fun u n => (inr (page u), n);
     now := fun n => ("20250101_000000", n);
     write_file := fun _ _ n => (inr tt, n) |}.

(** An answer carrying one call of the tool [name]. *)
Definition calls (name : string) (args : tool_args) : response :=
  {| tool_calls := [ {| function_name := name; function_arguments := inr args |} ] |}.

Definition no_tool_call : response := {| tool_calls := [] |}.

Definition queries_args (qs : list string) : tool_args :=
  {| queries := Some qs; relevance_score_arg := None; summary_arg := None;
     relevant_info_arg := None; subcomponents_arg := None;
     has_sufficient_info := None; missing_info := None |}.

Definition relevance_args (score : number) : tool_args :=
  {| queries := None; relevance_score_arg := Some score; summary_arg := Some "s";
     relevant_info_arg := Some "i"; subcomponents_arg := None;
     has_sufficient_info := None; missing_info := None |}.

Definition sufficiency_args (enough : bool) : tool_args :=
  {| queries := None; relevance_score_arg := None; summary_arg := None;
     relevant_info_arg := None; subcomponents_arg := None;
     has_sufficient_info := Some enough; missing_info := Some ["gap"] |}.

Definition subcomponents_args (subs : list string) : tool_args :=
  {| queries := None; relevance_score_arg := None; summary_arg := None;
     relevant_info_arg := None; subcomponents_arg := Some subs;
     has_sufficient_info := None; missing_info := None |}.

(** A cooperative model: it proposes the queries [qs], scores every page
    [score], judges the evidence [enough] and decomposes into [subs]. *)
Definition cooperative (qs : list string) (score : number) (enough : bool)
    (subs : list string) (p : prompt) (n : nat) : exn + response :=
  inr match p with
      | GeneratePrompt _ _ _ => calls "generate_search_queries" (queries_args qs)
      | AnalyzePrompt _ _ _ => calls "analyze_website_relevance" (relevance_args score)
      | SufficiencyPrompt _ _ => calls "create_final_report" (sufficiency_args enough)
      | DecomposePrompt _ => calls "decompose_query" (subcomponents_args subs)
      end.

Definition one_page (q : string) : exn + list string := inr ["http://a"].
Definition some_text (u : string) : option string := Some "text".

Definition researcher3 : CustomResearcher :=
  {| max_loops := 3; search_results_per_query := 5 |}.

Definition researcher2 : CustomResearcher :=
  {| max_loops := 2; search_results_per_query := 5 |}.

(** Two queries whose searches both return the same page. *)
Definition env_same_page : Env :=
  scripted (cooperative ["q1"; "q2"] (NFloat 0.75) true ["x"]) one_page some_text.

(** A model that proposes the same query in every pass and never finds
    the evidence sufficient. *)
Definition env_same_query : Env :=
  scripted (cooperative ["q"] (NFloat 0.75) false ["x"]) one_page some_text.

(** A model that answers with the right tool but an empty query list. *)
Definition env_empty_queries : Env :=
  scripted (cooperative [] (NFloat 0.75) false ["x"]) one_page some_text.

(** A client whose every function-calling request raises. *)
Definition env_failing : Env :=
  scripted (fun _ _ => inl (Exception "APIConnectionError")) one_page some_text.

(** A model that decomposes into an empty list. *)
Definition env_empty_decomposition : Env :=
  scripted (cooperative ["q"] (NFloat 0.75) true []) one_page some_text.

(** A model that names the same subtopic twice. *)
Definition env_twice : Env :=
  scripted (cooperative ["q"] (NFloat 0.75) true ["a"; "a"]) one_page some_text.

(** Two queries, and a search that returns one page per query. *)
Definition env_two_pages : Env :=
  scripted (cooperative ["q1"; "q2"] (NFloat 0.75) true ["x"])
    (fun q => inr ["http://" +:+ q]) some_text.

(** Two subtopics; the pages found score 0.75 for the first and 0.25 for
    the second. *)
Definition env_two_subtopics : Env :=
  scripted (fun p n =>
              match p with
              | AnalyzePrompt "a" _ _ =>
                  inr (calls "analyze_website_relevance" (relevance_args (NFloat 0.75)))
              | _ => cooperative ["q"] (NFloat 0.25) true ["a"; "b"] p n
              end) one_page some_text.


(** A model that never calls a tool. *)
Definition env_silent : Env :=
  scripted (fun _ _ => inr no_tool_call) one_page some_text.

(** A client that answers every request but the sufficiency assessment,
    which raises. *)
Definition env_failing_assessment : Env :=
  scripted (fun p n =>
              match p with
              | SufficiencyPrompt _ _ => inl (Exception "APITimeoutError")
              | _ => cooperative ["q"] (NFloat 0.75) true ["x"] p n
              end) one_page some_text.

(** ** The rest of the program *)

(** *** [__init__] *)

(** What [json.load] makes of [config.json], as far as [__init__] reads
    it; [None] is an absent key. *)
Record config : Type := {
  api_key : option string;
  cfg_max_loops : option Z;
  cfg_search_results_per_query : option Z
}.

(** [CustomResearcher(config_path)], given what opening and loading the
    file yields and what [OpenAI(api_key=...)] does with a key: [Some e]
    when the constructor raises [e].  The keys are read in the order
    ["api_key"], ["max_loops"], ["search_results_per_query"], and the
    client is built as soon as the first is read. *)
Definition __init__ (loaded : exn + config) (openai : string -> option exn)
  : exn + CustomResearcher :=
  match loaded with
  | inl e => inl e
  | inr cfg =>
      match api_key cfg with
      | None => inl (KeyError "api_key")
      | Some key =>
          match openai key with
          | Some e => inl e
          | None =>
              match cfg_max_loops cfg with
              | None => inl (KeyError "max_loops")
              | Some m =>
                  match cfg_search_results_per_query cfg with
                  | None => inl (KeyError "search_results_per_query")
                  | Some n => inr {| max_loops := m; search_results_per_query := n |}
                  end
              end
          end
      end
  end.

(** *** [_define_tools] *)

Inductive json_type : Type :=
  | JString
  | JNumber
  | JBoolean
  | JArray (items : json_type)
  | JObject.

(** One entry of [_define_tools]: the function's name, the declared
    properties with their types, and the [required] list.  The
    descriptions are left out. *)
Record tool_schema : Type := {
  schema_name : string;
  properties : list (string * json_type);
  required : list string
}.

Definition _define_tools : list tool_schema :=
  [ {| schema_name := "generate_search_queries";
       properties := [("queries", JArray JString); ("operator_rationale", JObject);
                      ("knowledge_gaps", JArray JString)];
       required := ["queries"] |};
    {| schema_name := "analyze_website_relevance";
       properties := [("relevance_score", JNumber); ("summary", JString);
                      ("relevant_info", JString)];
       required := ["relevance_score"; "summary"; "relevant_info"] |};
    {| schema_name := "decompose_query";
       properties := [("subcomponents", JArray JString)];
       required := ["subcomponents"] |};
    {| schema_name := "create_final_report";
       properties := [("report", JString); ("has_sufficient_info", JBoolean);
                      ("missing_info", JArray JString)];
       required := ["report"; "has_sufficient_info"] |} ].

(** [key in args], for the keys [tool_args] represents; a key the code
    never reads is not represented and counts as present. *)
Definition has_key (key : string) (args : tool_args) : bool :=
  if String.eqb key "queries" then bool_decide (is_Some (queries args))
  else if String.eqb key "relevance_score" then bool_decide (is_Some (relevance_score_arg args))
  else if String.eqb key "summary" then bool_decide (is_Some (summary_arg args))
  else if String.eqb key "relevant_info" then bool_decide (is_Some (relevant_info_arg args))
  else if String.eqb key "subcomponents" then bool_decide (is_Some (subcomponents_arg args))
  else if String.eqb key "has_sufficient_info" then bool_decide (is_Some (has_sufficient_info args))
  else if String.eqb key "missing_info" then bool_decide (is_Some (missing_info args))
  else true.

(** The arguments carry every key the declared schema of [name] requires. *)
Definition conforms (name : string) (args : tool_args) : bool :=
  match find (fun s => String.eqb (schema_name s) name) _define_tools with
  | Some s => forallb (fun key => has_key key args) (required s)
  | None => false
  end.

(** *** [main] *)

(** The loop of [main] over its queries: each is researched inside
    [try ... except Exception], and only printed about. *)
Definition research_all {E : Env} (researcher : CustomResearcher) (fuel : nat)
    (queries : list string) : M E unit :=
  for_in queries tt
    (fun query _ =>
       try_except (report <- research researcher fuel query ;; ret tt)
                  (fun _ => ret tt)).

(** [main], given what loading [config.json] yields and what the client
    constructor does. *)
Definition main {E : Env} (loaded : exn + config) (openai : string -> option exn)
    (fuel : nat) : M E unit :=
  match __init__ loaded openai with
  | inl e => raise e
  | inr researcher =>
      research_all researcher fuel ["why did snow white 2025 movie fail"]
  end.

(** ** More specification vocabulary *)

(** The text [_save_report] writes for a report. *)
Definition saved_text (report : ResearchReport) : string :=
  final_report report +:+ nl +:+ nl +:+ "## Sources" +:+ nl +:+
  join "" (source_lines (sources report)) +:+
  nl +:+ nl +:+ "*Report generated on: " +:+ timestamp report +:+ "*".

(** The scoring requests, in order. *)
Definition analyzed (t : list event) : list string :=
  omap (fun e => match e with EvTools (AnalyzePrompt _ u _) => Some u | _ => None end) t.

(** For every query-generation request in [t], the history it was shown
    paired with the queries searched before it; [seen] are the queries
    searched before [t]. *)
Fixpoint history_audit (seen : list string) (t : list event)
  : list (list string * list string) :=
  match t with
  | [] => []
  | EvTools (GeneratePrompt _ _ h) :: t' => (h, seen) :: history_audit seen t'
  | EvSearch q :: t' => history_audit (seen ++ [q]) t'
  | _ :: t' => history_audit seen t'
  end.

(** What a fetch hands to the loop: the page text, [None] when the crawler
    raised. *)
Definition fetched (r : exn + option string) : option string :=
  match r with
  | inl _ => None
  | inr c => c
  end.

(** [reports'] extends [reports] by items that satisfy [P]. *)
Definition extended (P : WebsiteReport -> Prop) (reports reports' : list WebsiteReport) : Prop :=
  exists acc, reports' = reports ++ acc /\ Forall P acc.

(** An accepted item keeps the page it was scored on: non-empty text. *)
Definition has_text (r : WebsiteReport) : Prop := content r <> "".

(** What a pass over URLs guarantees, whatever its end: at most [k]
    fetches, no search, and only items with their page text added. *)
Definition within (k : nat) (reports : list WebsiteReport)
    (r : result (list WebsiteReport)) (t : list event) : Prop :=
  (length (crawled t) <= k)%nat
  /\ searched t = []
  /\ forall reports', r = Ok reports' -> extended has_text reports reports'.

(** The same for a pass over queries: three fetches per search at most. *)
Definition per_search (reports : list WebsiteReport)
    (r : result (list WebsiteReport)) (t : list event) : Prop :=
  (length (crawled t) <= 3 * length (searched t))%nat
  /\ forall reports', r = Ok reports' -> extended has_text reports reports'.

(** [m] ends within its fuel, from every world. *)
Definition total {E : Env} {A : Type} (m : M E A) : Prop :=
  sat m (fun r _ => r <> OutOfFuel).

(** A pass that made no scoring request and left the evidence as it was. *)
Definition unchanged (reports : list WebsiteReport)
    (r : result (list WebsiteReport)) (t : list event) : Prop :=
  analyzed t = [] /\ forall reports', r = Ok reports' -> reports' = reports.

(** A site whose pages cannot be fetched. *)
Definition env_no_pages : Env :=
  scripted (cooperative ["q1"; "q2"] (NFloat 0.75) false ["x"]) one_page (fun _ => None).

(** A search that returns five pages for every query. *)
Definition env_five_pages : Env :=
  scripted (cooperative ["q1"; "q2"] (NFloat 0.75) false ["x"])
    (fun _ => inr ["http://1"; "http://2"; "http://3"; "http://4"; "http://5"]) some_text.

(** A failing primary search, and a results page with the given links. *)
Definition env_scrape (hrefs : exn + list (option string)) : Env :=
  {| W := nat;
     chat_tools := fun p n => (cooperative ["q"] (NFloat 0.75) true ["x"] p n, S n);
     chat_text := fun _ n => (inl (Exception "RateLimitError"), n);
     googlesearch := fun _ _ n => (inl (Exception "HTTPError 429"), n);
     serp_hrefs := fun _ _ n => (hrefs, n);
     arun := fun _ n => (inl (Exception "TimeoutError"), n);
     now := fun n => ("20250101_000000", n);
     write_file := fun _ _ n => (inr tt, n) |}.

(** A disk that cannot be written. *)
Definition env_read_only : Env :=
  {| W := nat;
     chat_tools := fun p n => (cooperative ["q"] (NFloat 0.75) true ["x"] p n, S n);
     chat_text := fun _ n => (inr (Some "text"), n);
     googlesearch := fun _ _ n => (inr ["http://a"], n);
     serp_hrefs := fun _ _ n => (inr [], n);
     arun := fun _ n => (inr (Some "text"), n);
     now := fun n => ("20250101_000000", n);
     write_file := fun _ _ n => (inl (Exception "PermissionError"), n) |}.

(** * Proofs *)

(** ** The threshold test *)

Example gt_0_3_int0 : gt_0_3 (NInt 0) = false.
Proof. reflexivity. Qed.

Example gt_0_3_float : gt_0_3 (NFloat 0.25%float) = false /\ gt_0_3 (NFloat 0.5%float) = true.
Proof. split; reflexivity. Qed.

(** ** Reasoning rules *)

Section Rules.

Context {E : Env}.

Lemma sat_run {A : Type} (m : M E A) P w r w' t :
  sat m P -> m w = (r, w', t) -> P r t.
Proof. intros H Hm. specialize (H w). now rewrite Hm in H. Qed.

Lemma sat_conseq {A : Type} (m : M E A) (P Q : result A -> list event -> Prop) :
  sat m P -> (forall r t, P r t -> Q r t) -> sat m Q.
Proof.
  intros H HPQ w. specialize (H w). destruct (m w) as [[r w1] t]. auto.
Qed.

Lemma sat_ret {A : Type} (a : A) (P : result A -> list event -> Prop) :
  P (Ok a) [] -> sat (E := E) (ret a) P.
Proof. intros H w. exact H. Qed.

Lemma sat_raise {A : Type} (e : exn) (P : result A -> list event -> Prop) :
  P (Raised e) [] -> sat (E := E) (raise e) P.
Proof. intros H w. exact H. Qed.

Lemma sat_external {A : Type} ev (f : W E -> (exn + A) * W E)
    (P : result A -> list event -> Prop) :
  (forall a, P (Ok a) [ev]) -> (forall e, P (Raised e) [ev]) -> sat (external ev f) P.
Proof.
  intros Hok Herr w. unfold external. destruct (f w) as [[e | a] w1]; auto.
Qed.

Lemma sat_bind {A B : Type} (m : M E A) (f : A -> M E B)
    (P : result B -> list event -> Prop) :
  sat m (fun r t1 =>
           match r with
           | Ok a => sat (f a) (fun r2 t2 => P r2 (t1 ++ t2))
           | Raised e => P (Raised e) t1
           | OutOfFuel => P OutOfFuel t1
           end) ->
  sat (bind m f) P.
Proof.
  intros H w. specialize (H w). unfold bind.
  destruct (m w) as [[[a | e |] w1] t1]; auto.
  specialize (H w1). destruct (f a w1) as [[r2 w2] t2]. exact H.
Qed.

Lemma sat_try_except {A : Type} (m : M E A) (h : exn -> M E A)
    (P : result A -> list event -> Prop) :
  sat m (fun r t1 =>
           match r with
           | Raised e => sat (h e) (fun r2 t2 => P r2 (t1 ++ t2))
           | other => P other t1
           end) ->
  sat (try_except m h) P.
Proof.
  intros H w. specialize (H w). unfold try_except.
  destruct (m w) as [[[a | e |] w1] t1]; auto.
  specialize (H w1). destruct (h e w1) as [[r2 w2] t2]. exact H.
Qed.

(** A loop over a list: [R s r t] relates the state at entry to the end
    and the calls of the rest of the loop. *)
Lemma sat_for_in {A S : Type} (body : A -> S -> M E S)
    (B : A -> S -> result S -> list event -> Prop)
    (R : list A -> S -> result S -> list event -> Prop) :
  (forall x s, sat (body x s) (B x s)) ->
  (forall s, R [] s (Ok s) []) ->
  (forall x xs s s1 t1 r t2,
      B x s (Ok s1) t1 -> R xs s1 r t2 -> R (x :: xs) s r (t1 ++ t2)) ->
  (forall x xs s e t, B x s (Raised e) t -> R (x :: xs) s (Raised e) t) ->
  (forall x xs s t, B x s OutOfFuel t -> R (x :: xs) s OutOfFuel t) ->
  forall xs s, sat (for_in xs s body) (R xs s).
Proof.
  intros Hbody Hnil Hcons Herr Hfuel xs.
  induction xs as [| x xs IH]; intros s; simpl.
  - apply sat_ret, Hnil.
  - apply sat_bind. eapply sat_conseq; [apply Hbody |].
    intros [s1 | e |] t1 HB; eauto.
    eapply sat_conseq; [apply IH |]. intros r t2 HR. eauto.
Qed.

Lemma returns_any {A : Type} (m : M E A) : returns m (fun _ => True).
Proof. intros w. destruct (m w) as [[r w1] t]. auto. Qed.

Lemma returns_conseq {A : Type} (m : M E A) (P Q : A -> Prop) :
  returns m P -> (forall a, P a -> Q a) -> returns m Q.
Proof.
  intros H HPQ. eapply sat_conseq; [exact H |]. simpl. intros r t HP a ->. eauto.
Qed.

Lemma returns_ret {A : Type} (a : A) (Q : A -> Prop) : Q a -> returns (E := E) (ret a) Q.
Proof. intros H. apply sat_ret. now intros ? [= <-]. Qed.

Lemma returns_bind {A B : Type} (m : M E A) (f : A -> M E B) (Q : B -> Prop) :
  returns m (fun a => returns (f a) Q) -> returns (bind m f) Q.
Proof.
  intros H. apply sat_bind. eapply sat_conseq; [exact H |]. simpl.
  intros [a | e |] t Ha; [| intros ? [=] ..].
  eapply sat_conseq; [exact (Ha a eq_refl) |]. auto.
Qed.

Lemma returns_run {A : Type} (m : M E A) (Q : A -> Prop) w a w' t :
  returns m Q -> m w = (Ok a, w', t) -> Q a.
Proof. intros H Hm. exact (sat_run _ _ _ _ _ _ H Hm a eq_refl). Qed.

End Rules.

(** The record of calls splits along [++]. *)
Lemma crawled_app t1 t2 : crawled (t1 ++ t2) = crawled t1 ++ crawled t2.
Proof. apply omap_app. Qed.

Lemma searched_app t1 t2 : searched (t1 ++ t2) = searched t1 ++ searched t2.
Proof. apply omap_app. Qed.

Lemma generated_app t1 t2 : generated (t1 ++ t2) = generated t1 ++ generated t2.
Proof. apply omap_app. Qed.

(** ** What one subtopic run does *)

Lemma grown_refl reports t : grown reports reports t.
Proof.
  exists []. rewrite app_nil_r. repeat split; [constructor | apply sublist_nil_l].
Qed.

Lemma grown_trans r0 r1 r2 t1 t2 :
  grown r0 r1 t1 -> grown r1 r2 t2 -> grown r0 r2 (t1 ++ t2).
Proof.
  intros (a1 & -> & F1 & S1) (a2 & -> & F2 & S2).
  exists (a1 ++ a2). rewrite app_assoc. split; [reflexivity |]. split.
  - apply Forall_app; auto.
  - rewrite map_app, crawled_app. now apply sublist_app.
Qed.

Lemma grown_later r0 r1 t0 t1 : grown r0 r1 t1 -> grown r0 r1 (t0 ++ t1).
Proof.
  intros (a & -> & F & S). exists a. repeat split; auto.
  rewrite crawled_app. now apply sublist_inserts_l.
Qed.

Lemma grown_earlier r0 r1 t1 t2 : grown r0 r1 t1 -> grown r0 r1 (t1 ++ t2).
Proof.
  intros (a & -> & F & S). exists a. repeat split; auto.
  rewrite crawled_app. now apply sublist_inserts_r.
Qed.

Section Loop.

Context {E : Env} (self : CustomResearcher).

Ltac step :=
  first
    [ apply sat_bind
    | apply sat_try_except
    | apply sat_ret
    | apply sat_raise
    | apply sat_external ].

Lemma crawl_website_sat (u : string) :
  sat (E := E) (_crawl_website u)
    (fun r t => (exists c, r = Ok c) /\ t = [EvCrawl u]).
Proof.
  unfold _crawl_website. step. step.
  - intros a. eauto.
  - intros e. step. simpl. eauto.
Qed.

Lemma json_loads_sat (tc : tool_call) :
  sat (E := E) (json_loads tc) (fun r t => r <> OutOfFuel /\ t = []).
Proof.
  unfold json_loads. destruct (function_arguments tc); step; auto.
Qed.

Lemma subscript_sat {A : Type} key (field : option A) :
  sat (E := E) (subscript key field) (fun r t => r <> OutOfFuel /\ t = []).
Proof.
  unfold subscript. destruct field; step; auto.
Qed.

Lemma analyze_sat (u c q : string) :
  sat (E := E) (_analyze_website_content u c q)
    (fun r t =>
       r <> OutOfFuel
       /\ t = [EvTools (AnalyzePrompt q u (prefix_of 10000 c))]
       /\ forall rep, r = Ok rep -> url rep = u).
Proof.
  unfold _analyze_website_content, _call_openai_with_tools.
  step. step; [| intros e; repeat split; congruence].
  intros resp.
  destruct (tool_calls resp) as [| tc rest];
    [step; repeat split; try congruence; intros rep [= <-]; reflexivity |].
  destruct (String.eqb _ _);
    [| step; repeat split; try congruence; intros rep [= <-]; reflexivity].
  step. eapply sat_conseq; [apply json_loads_sat |].
  intros [args | e |] t [Hr ->]; try (repeat split; congruence).
  step. eapply sat_conseq; [apply subscript_sat |].
  intros [score | e |] t [Hr1 ->]; try (repeat split; congruence).
  step. eapply sat_conseq; [apply subscript_sat |].
  intros [summ | e |] t [Hr2 ->]; try (repeat split; congruence).
  step. eapply sat_conseq; [apply subscript_sat |].
  intros [info | e |] t [Hr3 ->]; try (repeat split; congruence).
  step. repeat split; try congruence. intros rep [= <-]. reflexivity.
Qed.

Lemma quiet_growth_ok (queries : list string) (reports reports' : list WebsiteReport) t :
  generated t = [] -> searched t = queries -> grown reports reports' t ->
  quiet_growth queries reports (Ok reports') t.
Proof.
  intros G S Gr. split; [congruence |]. split; [exact G |].
  intros ? [= <-]. auto.
Qed.

Lemma quiet_growth_raised (queries : list string) (reports : list WebsiteReport) e t :
  generated t = [] -> quiet_growth queries reports (Raised e) t.
Proof.
  intros G. split; [congruence |]. split; [exact G |]. intros ? [=].
Qed.

Lemma visit_url_sat (q u : string) (reports : list WebsiteReport) :
  sat (E := E) (visit_url q u reports) (quiet_growth [] reports).
Proof.
  unfold visit_url. step.
  eapply sat_conseq; [apply crawl_website_sat |].
  intros r t [[c ->] ->].
  destruct (truthy c).
  - step. eapply sat_conseq; [apply analyze_sat |].
    intros [rep | e |] t (Hr & -> & Hu);
      [| now apply quiet_growth_raised | congruence].
    specialize (Hu rep eq_refl).
    destruct (gt_0_3 (relevance_score rep)) eqn:Hs; step.
    + apply quiet_growth_ok; try reflexivity.
      exists [rep]. split; [reflexivity |]. split.
      * constructor; [exact Hs | constructor].
      * simpl. rewrite Hu. reflexivity.
    + apply quiet_growth_ok; try reflexivity. apply grown_refl.
  - step. apply quiet_growth_ok; try reflexivity. apply grown_refl.
Qed.

Lemma for_urls_sat (q : string) (urls : list string) (reports : list WebsiteReport) :
  sat (E := E) (for_in urls reports (visit_url q)) (quiet_growth [] reports).
Proof.
  apply (sat_for_in (visit_url q)
           (fun _ s => quiet_growth [] s) (fun _ s => quiet_growth [] s)).
  - intros x s. apply visit_url_sat.
  - intros s. apply quiet_growth_ok; try reflexivity. apply grown_refl.
  - intros x xs s s1 t1 r t2 (_ & G1 & H1) (Hr & G2 & H2).
    destruct (H1 s1 eq_refl) as [S1 Gr1].
    split; [exact Hr |]. split.
    + rewrite generated_app, G1, G2. reflexivity.
    + intros s2 ->. destruct (H2 s2 eq_refl) as [S2 Gr2]. split.
      * rewrite searched_app, S1, S2. reflexivity.
      * eapply grown_trans; eauto.
  - intros x xs s e t (_ & G & _). now apply quiet_growth_raised.
  - intros x xs s t (Hr & _). congruence.
Qed.

Lemma scrape_sat (q : string) :
  sat (E := E) (_scrape_google_serp self q)
    (fun r t => r <> OutOfFuel /\ t = [EvScrape q]).
Proof.
  unfold _scrape_google_serp. step. step. step.
  - intros hrefs. step. split; [congruence | reflexivity].
  - intros e. destruct e; step; split; try congruence; reflexivity.
Qed.

Lemma google_search_sat (q : string) :
  sat (E := E) (_google_search self q)
    (fun r t => r <> OutOfFuel /\ generated t = [] /\ searched t = [q] /\ crawled t = []).
Proof.
  unfold _google_search. step. step.
  - intros urls. repeat split; congruence.
  - intros e. eapply sat_conseq; [apply scrape_sat |].
    intros r t [Hr ->]. repeat split; auto.
Qed.

Lemma run_query_sat (q sq : string) (reports : list WebsiteReport) :
  sat (E := E) (run_query self q sq reports) (quiet_growth [sq] reports).
Proof.
  unfold run_query. step.
  eapply sat_conseq; [apply google_search_sat |].
  intros [urls | e |] t (Hr & G & S & C);
    [| now apply quiet_growth_raised | congruence].
  eapply sat_conseq; [apply for_urls_sat |].
  intros r t2 (Hr2 & G2 & H2).
  split; [exact Hr2 |]. split.
  - rewrite generated_app, G, G2. reflexivity.
  - intros reports' ->. destruct (H2 reports' eq_refl) as [S2 Gr]. split.
    + rewrite searched_app, S, S2. reflexivity.
    + now apply grown_later.
Qed.

Lemma for_queries_sat (q : string) (qs : list string) (reports : list WebsiteReport) :
  sat (E := E) (for_in qs reports (run_query self q)) (quiet_growth qs reports).
Proof.
  apply (sat_for_in (run_query self q)
           (fun x s => quiet_growth [x] s) (fun xs s => quiet_growth xs s)).
  - intros x s. apply run_query_sat.
  - intros s. apply quiet_growth_ok; try reflexivity. apply grown_refl.
  - intros x xs s s1 t1 r t2 (_ & G1 & H1) (Hr & G2 & H2).
    destruct (H1 s1 eq_refl) as [S1 Gr1].
    split; [exact Hr |]. split.
    + rewrite generated_app, G1, G2. reflexivity.
    + intros s2 ->. destruct (H2 s2 eq_refl) as [S2 Gr2]. split.
      * rewrite searched_app, S1, S2. reflexivity.
      * eapply grown_trans; eauto.
  - intros x xs s e t (_ & G & _). now apply quiet_growth_raised.
  - intros x xs s t (Hr & _). congruence.
Qed.

Lemma progress_refl v : progress v v [].
Proof. split; [apply grown_refl | simpl; now rewrite app_nil_r]. Qed.

Lemma progress_trans v0 v1 v2 t1 t2 :
  progress v0 v1 t1 -> progress v1 v2 t2 -> progress v0 v2 (t1 ++ t2).
Proof.
  intros [G1 H1] [G2 H2]. split.
  - eapply grown_trans; eauto.
  - rewrite H2, H1, searched_app, app_assoc. reflexivity.
Qed.

Lemma loop_body_sat (q : string) (v : loop_vars) :
  sat (E := E) (loop_body self q v) (body_post v).
Proof.
  unfold loop_body, _call_openai_with_tools. step. step;
    [| intros e; split; [congruence |]; split; [reflexivity | intros ? [=]]].
  intros resp.
  assert (Hbreak : body_post v (Ok (Break v))
                     ([EvTools (GeneratePrompt q (knowledge_gaps v) (search_history v))] ++ [])).
  { split; [congruence |]. split; [reflexivity |].
    intros ? [= <-]. simpl. split; [reflexivity |].
    split; [apply grown_refl | simpl; now rewrite app_nil_r]. }
  destruct (tool_calls resp) as [| tc rest]; [step; exact Hbreak |].
  destruct (negb _); [step; exact Hbreak |]. clear Hbreak.
  step. eapply sat_conseq; [apply json_loads_sat |].
  intros [args | e |] t0 [Hr0 ->];
    [| split; [congruence |]; split; [reflexivity | intros ? [=]] | congruence].
  step. eapply sat_conseq; [apply for_queries_sat |].
  intros [found | e |] t1 (Hr1 & G1 & H1);
    [| split; [congruence |]; split; [simpl; now rewrite G1 | intros ? [=]] | congruence].
  destruct (H1 found eq_refl) as [S1 Gr1].
  assert (Hprog : forall kg c t3, generated t3 = [] -> searched t3 = [] -> crawled t3 = [] ->
            progress v
              {| all_reports := found; knowledge_gaps := kg;
                 search_history := search_history v ++ default [] (queries args);
                 count := c |}
              ([EvTools (GeneratePrompt q (knowledge_gaps v) (search_history v))]
                 ++ [] ++ t1 ++ t3)).
  { intros kg c t3 G3 S3 C3. split; simpl.
    - apply (grown_later _ _ [_]). simpl. apply grown_earlier. exact Gr1.
    - rewrite searched_app, S1, S3, app_nil_r. reflexivity. }
  assert (Hgen : forall t3, generated t3 = [] ->
            generated ([EvTools (GeneratePrompt q (knowledge_gaps v) (search_history v))]
                         ++ [] ++ t1 ++ t3) = [search_history v]).
  { intros t3 G3. simpl. rewrite generated_app, G1, G3. reflexivity. }
  step. step; [| intros e; split; [congruence |]; split;
                 [now apply Hgen | intros ? [=]]].
  intros resp2.
  destruct (tool_calls resp2) as [| tc2 rest2].
  { step. split; [congruence |]. split; [now apply Hgen |].
    intros ? [= <-]. split; [reflexivity |]. now apply Hprog. }
  destruct (String.eqb _ _).
  2:{ step. split; [congruence |]. split; [now apply Hgen |].
      intros ? [= <-]. split; [reflexivity |]. now apply Hprog. }
  step. eapply sat_conseq; [apply json_loads_sat |].
  intros [args2 | e |] t2 [Hr2 ->];
    [| split; [congruence |]; split; [now apply Hgen | intros ? [=]] | congruence].
  destruct (default false (has_sufficient_info args2)); step.
  - split; [congruence |]. split; [now apply Hgen |].
    intros ? [= <-]. split; [reflexivity |]. now apply Hprog.
  - split; [congruence |]. split; [now apply Hgen |].
    intros ? [= <-]. split; [reflexivity |]. now apply Hprog.
Qed.

Lemma while_loop_sat (q : string) (fuel : nat) :
  forall v, sat (E := E) (while_loop self fuel q v) (loop_post self fuel v).
Proof.
  induction fuel as [| fuel IH]; intros v; simpl;
    destruct (count v <? max_loops self) eqn:Hc;
    try apply Z.ltb_lt in Hc; try apply Z.ltb_ge in Hc.
  - intros w. split; [simpl; lia |]. split; [lia | intros ? [=]].
  - apply sat_ret. split; [simpl; lia |]. split; [congruence |].
    intros ? [= <-]. split; [lia | apply progress_refl].
  - apply sat_bind. eapply sat_conseq; [apply loop_body_sat |].
    intros [p | e |] t1 (Hr & G & Hp).
    + destruct (Hp p eq_refl) as [Hcount Hprog]. destruct p as [v1 | v1]; simpl in *.
      * apply sat_ret. rewrite app_nil_r.
        split; [rewrite G; simpl; lia |]. split; [congruence |].
        intros ? [= <-]. split; [lia | exact Hprog].
      * eapply sat_conseq; [apply IH |].
        intros r t2 (Hlen & Hfuel & Hok).
        split; [rewrite generated_app, length_app, G; simpl; lia |].
        split; [intros Hle; apply Hfuel; lia |].
        intros v2 ->. destruct (Hok v2 eq_refl) as [Hb Hprog2].
        split; [lia | eapply progress_trans; eauto].
    + split; [rewrite G; simpl; lia |]. split; [congruence | intros ? [=]].
    + congruence.
  - apply sat_ret. split; [simpl; lia |]. split; [congruence |].
    intros ? [= <-]. split; [lia | apply progress_refl].
Qed.

Lemma research_subcomponent_sat (fuel : nat) (q : string) (c : Z) :
  sat (E := E) (_research_subcomponent self fuel q c)
    (fun r t =>
       (length (generated t) <= Z.to_nat (max_loops self - c))%nat
       /\ ((Z.to_nat (max_loops self - c) <= fuel)%nat -> r <> OutOfFuel)
       /\ forall res, r = Ok res ->
            subquery res = q
            /\ c <= loop_count res <= Z.max c (max_loops self)
            /\ grown [] (reports res) t
            /\ search_queries_used res = searched t).
Proof.
  unfold _research_subcomponent. apply sat_bind.
  eapply sat_conseq; [apply while_loop_sat |].
  intros [v | e |] t (Hlen & Hfuel & Hok); simpl in *.
  - apply sat_ret. rewrite app_nil_r. split; [exact Hlen |]. split; [congruence |].
    intros ? [= <-]. simpl. destruct (Hok v eq_refl) as [Hb [Hg Hh]]. simpl in *.
    auto.
  - split; [exact Hlen |]. split; [congruence | intros ? [=]].
  - split; [exact Hlen |]. split; [| intros ? [=]].
    intros Hle Heq. now apply (Hfuel Hle).
Qed.

End Loop.

(** ** The claims about one subtopic run *)

Section SubtopicClaims.

Context {E : Env} (self : CustomResearcher).

(** C1, as the code has it.  Nothing compares a new item's URL with the
    URLs already accepted; each accepted item comes from its own fetch, in
    order, so the accepted URLs are a subsequence of the URLs fetched in
    the run and are pairwise distinct whenever no URL is fetched twice. *)
Theorem accepted_urls_follow_crawls (fuel : nat) (q : string) (c : Z)
    (w : W E) (res : subcomponent_result) (w' : W E) (t : list event) :
  _research_subcomponent self fuel q c w = (Ok res, w', t) ->
  sublist (map url (reports res)) (crawled t)
  /\ (NoDup (crawled t) -> NoDup (map url (reports res))).
Proof.
  intros Hrun.
  destruct (sat_run _ _ _ _ _ _ (research_subcomponent_sat self fuel q c) Hrun)
    as (_ & _ & Hok).
  destruct (Hok res eq_refl) as (_ & _ & (acc & Hacc & _ & Hsub) & _).
  simpl in Hacc. subst acc.
  split; [exact Hsub |]. intros Hnd. eapply sublist_NoDup; eauto.
Qed.

(** C2.  Every item of the accepted-evidence sequence a subtopic run
    returns has a relevance score strictly above 0.3. *)
Theorem accepted_scores_above_threshold (fuel : nat) (q : string) (c : Z)
    (w : W E) (res : subcomponent_result) (w' : W E) (t : list event) :
  _research_subcomponent self fuel q c w = (Ok res, w', t) ->
  Forall (fun r => gt_0_3 (relevance_score r) = true) (reports res).
Proof.
  intros Hrun.
  destruct (sat_run _ _ _ _ _ _ (research_subcomponent_sat self fuel q c) Hrun)
    as (_ & _ & Hok).
  destruct (Hok res eq_refl) as (_ & _ & (acc & Hacc & Hall & _) & _).
  simpl in Hacc. subst acc. exact Hall.
Qed.

(** The searches of a run are exactly the queries it recorded. *)
Lemma searches_are_the_recorded_queries (fuel : nat) (q : string) (c : Z)
    (w : W E) (res : subcomponent_result) (w' : W E) (t : list event) :
  _research_subcomponent self fuel q c w = (Ok res, w', t) ->
  searched t = search_queries_used res.
Proof.
  intros Hrun.
  destruct (sat_run _ _ _ _ _ _ (research_subcomponent_sat self fuel q c) Hrun)
    as (_ & _ & Hok).
  destruct (Hok res eq_refl) as (_ & _ & _ & Hs). now rewrite Hs.
Qed.

(** C4.  With [0 <= max_loops], a subtopic run started as [research]
    starts it, at [loop_count = 0], ends within [max_loops] passes whatever
    the collaborators answer: [max_loops] steps of fuel are enough, at
    most [max_loops] query-generation requests (one opens each pass) are
    made, and the counter returned lies between 0 and [max_loops]. *)
Theorem subtopic_loop_terminates (fuel : nat) (q : string) (w : W E) :
  0 <= max_loops self ->
  (Z.to_nat (max_loops self) <= fuel)%nat ->
  match _research_subcomponent self fuel q 0 w with
  | (r, _, t) =>
      r <> OutOfFuel
      /\ (length (generated t) <= Z.to_nat (max_loops self))%nat
      /\ forall res, r = Ok res -> 0 <= loop_count res <= max_loops self
  end.
Proof.
  intros Hpos Hfuel.
  pose proof (research_subcomponent_sat self fuel q 0 w) as H.
  destruct (_research_subcomponent self fuel q 0 w) as [[r w'] t].
  destruct H as (Hlen & Hnf & Hok).
  rewrite Z.sub_0_r in Hlen, Hnf.
  split; [auto |]. split; [exact Hlen |].
  intros res ->. destruct (Hok res eq_refl) as (_ & Hb & _). lia.
Qed.

(** C5, as the code has it.  In any pass, when the answer to the
    query-generation request carries no tool call, or its first tool call
    is not [generate_search_queries], the loop ends there: the variables
    are returned unchanged and the pass made that one request only, so no
    search, fetch or assessment.  No termination reason is recorded. *)
Theorem no_generation_call_ends_loop (fuel : nat) (q : string) (v : loop_vars)
    (w : W E) (resp : response) (w1 : W E) :
  count v < max_loops self ->
  chat_tools E (GeneratePrompt q (knowledge_gaps v) (search_history v)) w = (inr resp, w1) ->
  first_call_is "generate_search_queries" resp = false ->
  while_loop self (S fuel) q v w
  = (Ok v, w1, [EvTools (GeneratePrompt q (knowledge_gaps v) (search_history v))]).
Proof.
  intros Hc Hresp Hfirst. simpl.
  apply Z.ltb_lt in Hc. rewrite Hc.
  unfold bind, loop_body, _call_openai_with_tools, external, bind.
  rewrite Hresp. unfold first_call_is in Hfirst.
  destruct (tool_calls resp) as [| tc rest]; [reflexivity |].
  rewrite Hfirst. reflexivity.
Qed.

(** C10.  When the answer to the scoring request carries no tool call, or
    its first tool call is not [analyze_website_relevance], the analysis
    returns the report with score 0 and empty summary and information,
    0 does not pass the threshold, and the page is not added to the
    accepted evidence. *)
Theorem unscored_page_is_not_accepted (q u c : string) (w : W E)
    (resp : response) (w1 : W E) :
  chat_tools E (AnalyzePrompt q u (prefix_of 10000 c)) w = (inr resp, w1) ->
  first_call_is "analyze_website_relevance" resp = false ->
  _analyze_website_content u c q w
  = (Ok {| url := u; content := c; relevance_score := NInt 0;
           summary := ""; relevant_info := "" |},
     w1, [EvTools (AnalyzePrompt q u (prefix_of 10000 c))])
  /\ gt_0_3 (NInt 0) = false
  /\ forall (reports : list WebsiteReport) (w0 : W E) (t0 : list event),
       _crawl_website u w0 = (Ok (Some c), w, t0) ->
       fst (fst (visit_url q u reports w0)) = Ok reports.
Proof.
  intros Hresp Hfirst.
  assert (Ha : _analyze_website_content u c q w
               = (Ok (default_report u c), w1,
                  [EvTools (AnalyzePrompt q u (prefix_of 10000 c))])).
  { unfold _analyze_website_content, bind, _call_openai_with_tools, external.
    rewrite Hresp. unfold first_call_is in Hfirst.
    destruct (tool_calls resp) as [| tc rest]; [reflexivity |].
    rewrite Hfirst. reflexivity. }
  split; [exact Ha |]. split; [reflexivity |].
  intros reports w0 t0 Hcrawl. unfold visit_url, bind. rewrite Hcrawl.
  destruct (truthy (Some c)); [| reflexivity].
  simpl default. rewrite Ha. reflexivity.
Qed.

End SubtopicClaims.

(** C1, as stated, fails: two queries whose searches return the same page
    put that page into the accepted evidence twice. *)
Lemma same_url_accepted_twice :
  exists res w' t,
    _research_subcomponent (E := env_same_page) researcher3 5 "topic" 0 0%nat
    = (Ok res, w', t)
    /\ map url (reports res) = ["http://a"; "http://a"]
    /\ ~ NoDup (map url (reports res)).
Proof.
  eexists _, _, _. split; [vm_compute; reflexivity |]. split; [reflexivity |].
  simpl. intros Hnd. apply NoDup_cons in Hnd as [Hin _]. apply Hin. left.
Qed.

(** C3, as stated, fails: the query generated again in the second pass is
    in the history shown to the generator, and is searched again and
    yields accepted evidence again. *)
Lemma repeated_query_searched_again :
  exists res w' t,
    _research_subcomponent (E := env_same_query) researcher2 5 "topic" 0 0%nat
    = (Ok res, w', t)
    /\ generated t = [[]; ["q"]]
    /\ searched t = ["q"; "q"]
    /\ length (reports res) = 2%nat.
Proof.
  eexists _, _, _. split; [vm_compute; reflexivity |]. repeat split.
Qed.

(** C5, as stated, fails: an answer with the right tool and an empty query
    list yields no query, yet the pass goes on to the assessment request
    and the loop to a second pass. *)
Lemma empty_query_list_goes_on :
  _research_subcomponent (E := env_empty_queries) researcher2 5 "topic" 0 0%nat
  = (Ok {| subquery := "topic"; reports := []; loop_count := 2;
           search_queries_used := [] |},
     4%nat,
     [EvTools (GeneratePrompt "topic" [] []);
      EvTools (SufficiencyPrompt "topic" []);
      EvTools (GeneratePrompt "topic" ["gap"] []);
      EvTools (SufficiencyPrompt "topic" [])]).
Proof. vm_compute. reflexivity. Qed.

(** C9 at its failing input: the assessment request raises after a page
    has been accepted; the exception leaves [_research_subcomponent] and
    the evidence is not returned.  The same holds when the very first
    query-generation request raises. *)
Theorem llm_exception_leaves_subtopic_run :
  _research_subcomponent (E := env_failing_assessment) researcher3 5 "topic" 0 0%nat
  = (Raised (Exception "APITimeoutError"), 3%nat,
     [EvTools (GeneratePrompt "topic" [] []); EvSearch "q"; EvCrawl "http://a";
      EvTools (AnalyzePrompt "topic" "http://a" "text");
      EvTools (SufficiencyPrompt "topic" ["i"])])
  /\ _research_subcomponent (E := env_failing) researcher3 5 "topic" 0 0%nat
     = (Raised (Exception "APIConnectionError"), 1%nat,
        [EvTools (GeneratePrompt "topic" [] [])]).
Proof. split; vm_compute; reflexivity. Qed.

(** The theorems above at concrete runs. *)

Lemma accepted_urls_follow_crawls_witness :
  exists res w' t,
    _research_subcomponent (E := env_two_pages) researcher3 5 "topic" 0 0%nat
    = (Ok res, w', t)
    /\ sublist (map url (reports res)) (crawled t)
    /\ NoDup (map url (reports res)).
Proof.
  eexists _, _, _. split; [vm_compute; reflexivity |].
  edestruct (accepted_urls_follow_crawls (E := env_two_pages) researcher3 5 "topic" 0 0%nat)
    as [Hsub Hnd]; [vm_compute; reflexivity |].
  split; [exact Hsub |]. apply Hnd.
  apply (bool_decide_unpack _). vm_compute. exact I.
Defined.

Lemma accepted_scores_above_threshold_witness :
  exists res w' t,
    _research_subcomponent (E := env_same_page) researcher3 5 "topic" 0 0%nat
    = (Ok res, w', t)
    /\ length (reports res) = 2%nat
    /\ Forall (fun r => gt_0_3 (relevance_score r) = true) (reports res).
Proof.
  eexists _, _, _. split; [vm_compute; reflexivity |]. split; [reflexivity |].
  eapply (accepted_scores_above_threshold (E := env_same_page) researcher3 5 "topic" 0 0%nat).
  vm_compute. reflexivity.
Defined.

Lemma subtopic_loop_terminates_witness :
  match _research_subcomponent (E := env_same_query) researcher2 2 "topic" 0 0%nat with
  | (r, _, t) =>
      r <> OutOfFuel
      /\ (length (generated t) <= Z.to_nat (max_loops researcher2))%nat
      /\ forall res, r = Ok res -> 0 <= loop_count res <= max_loops researcher2
  end.
Proof.
  apply (subtopic_loop_terminates (E := env_same_query) researcher2 2 "topic" 0%nat).
  - simpl. lia.
  - simpl. lia.
Defined.

Lemma no_generation_call_ends_loop_witness :
  let v := {| all_reports := []; knowledge_gaps := []; search_history := ["q"]; count := 1 |} in
  while_loop (E := env_silent) researcher3 1 "topic" v 0%nat
  = (Ok v, 1%nat, [EvTools (GeneratePrompt "topic" [] ["q"])]).
Proof.
  intros v.
  apply (no_generation_call_ends_loop (E := env_silent) researcher3 0 "topic" v 0%nat
           no_tool_call 1%nat).
  - simpl. lia.
  - reflexivity.
  - reflexivity.
Defined.

Lemma unscored_page_is_not_accepted_witness :
  _analyze_website_content (E := env_silent) "http://a" "text" "topic" 0%nat
  = (Ok {| url := "http://a"; content := "text"; relevance_score := NInt 0;
           summary := ""; relevant_info := "" |},
     1%nat, [EvTools (AnalyzePrompt "topic" "http://a" (prefix_of 10000 "text"))])
  /\ fst (fst (visit_url (E := env_silent) "topic" "http://a" [] 0%nat)) = Ok [].
Proof.
  destruct (unscored_page_is_not_accepted (E := env_silent) "topic" "http://a" "text" 0%nat
              no_tool_call 1%nat eq_refl eq_refl) as (Ha & _ & Hv).
  split; [exact Ha |].
  apply (Hv [] 0%nat [EvCrawl "http://a"]). reflexivity.
Defined.

(** ** Dictionaries and sets *)

Lemma add_key_spec (acc : list string) (k : string) :
  add_key acc k = if bool_decide (k ∈ acc) then acc else acc ++ [k].
Proof. reflexivity. Qed.

Lemma dict_keys_set {V : Type} (k : string) (v : V) (d : dict V) :
  dict_keys (dict_set k v d) = add_key (dict_keys d) k.
Proof.
  induction d as [| [k' v'] d IH]; simpl; [reflexivity |].
  unfold add_key in *. simpl.
  destruct (String.eqb k' k) eqn:Hk.
  - apply String.eqb_eq in Hk. subst k'. simpl.
    rewrite bool_decide_eq_true_2; [reflexivity | left].
  - apply String.eqb_neq in Hk. simpl. rewrite IH.
    destruct (bool_decide (k ∈ dict_keys d)) eqn:Hin.
    + apply bool_decide_eq_true_1 in Hin.
      rewrite bool_decide_eq_true_2; [reflexivity | now right].
    + apply bool_decide_eq_false_1 in Hin.
      rewrite bool_decide_eq_false_2; [reflexivity |].
      intros Hin'. apply elem_of_cons in Hin' as [-> | Hin']; auto.
Qed.

Lemma dict_get_set_eq {V : Type} (k : string) (v : V) (d : dict V) :
  dict_get k (dict_set k v d) = Some v.
Proof.
  induction d as [| [k' v'] d IH]; simpl.
  - now rewrite String.eqb_refl.
  - destruct (String.eqb k' k) eqn:Hk; simpl; rewrite Hk; auto.
Qed.

Lemma dict_get_set_ne {V : Type} (k k' : string) (v : V) (d : dict V) :
  k <> k' -> dict_get k' (dict_set k v d) = dict_get k' d.
Proof.
  intros Hne. induction d as [| [k0 v0] d IH]; simpl.
  - apply String.eqb_neq in Hne. now rewrite Hne.
  - destruct (String.eqb k0 k) eqn:Hk; simpl.
    + apply String.eqb_eq in Hk. subst k0.
      apply String.eqb_neq in Hne. now rewrite Hne.
    + destruct (String.eqb k0 k'); auto.
Qed.

Lemma fold_add_key_elem (ks acc : list string) (x : string) :
  x ∈ fold_left add_key ks acc <-> x ∈ acc \/ x ∈ ks.
Proof.
  revert acc. induction ks as [| k ks IH]; intros acc; simpl.
  - split; [auto | intros [H | H]; [exact H | inversion H]].
  - rewrite IH, add_key_spec. case_bool_decide as Hk.
    + rewrite elem_of_cons. split; [tauto |].
      intros [H | [-> | H]]; auto.
    + rewrite elem_of_app, list_elem_of_singleton, elem_of_cons. tauto.
Qed.

Lemma fold_add_key_NoDup (ks acc : list string) :
  NoDup acc -> NoDup (fold_left add_key ks acc).
Proof.
  revert acc. induction ks as [| k ks IH]; intros acc Hnd; simpl; [exact Hnd |].
  apply IH. rewrite add_key_spec. case_bool_decide as Hk; [exact Hnd |].
  apply NoDup_app. split; [exact Hnd |]. split.
  - intros x Hx Hx'. apply list_elem_of_singleton in Hx'. now subst.
  - apply NoDup_singleton.
Qed.

Lemma fold_add_key_distinct (ks acc : list string) :
  NoDup (acc ++ ks) -> fold_left add_key ks acc = acc ++ ks.
Proof.
  revert acc. induction ks as [| k ks IH]; intros acc Hnd; simpl.
  - now rewrite app_nil_r.
  - rewrite add_key_spec. apply NoDup_app in Hnd as Hparts.
    destruct Hparts as (_ & Hdisj & _).
    rewrite bool_decide_eq_false_2.
    + rewrite IH; rewrite <- app_assoc; [reflexivity | exact Hnd].
    + intros Hin. apply (Hdisj k Hin). left.
Qed.

Lemma first_seen_elem (ks : list string) (x : string) : x ∈ first_seen ks <-> x ∈ ks.
Proof.
  unfold first_seen. rewrite fold_add_key_elem. split; [| auto].
  intros [H | H]; [inversion H | exact H].
Qed.

Lemma first_seen_NoDup (ks : list string) : NoDup (first_seen ks).
Proof. apply fold_add_key_NoDup, NoDup_nil_2. Qed.

Lemma first_seen_distinct (ks : list string) : NoDup ks -> first_seen ks = ks.
Proof. intros H. unfold first_seen. now rewrite fold_add_key_distinct. Qed.






(** ** How [research] assembles its report *)

Section Research.

Context {E : Env} (self : CustomResearcher).

Lemma section_texts_ok (d : dict (option string)) :
  forall sections, section_texts d = inr sections ->
    dict_keys sections = dict_keys d
    /\ forall k text, dict_get k d = Some (Some text) -> dict_get k sections = Some text.
Proof.
  induction d as [| [k [text |]] d IH]; simpl; intros sections Hs.
  - injection Hs as <-. split; [reflexivity | intros ? ? [=]].
  - destruct (section_texts d) as [e | rest]; [discriminate |].
    injection Hs as <-. destruct (IH rest eq_refl) as [Hk Hg]. simpl. split.
    + now rewrite Hk.
    + intros k0 text0. destruct (String.eqb k k0); [now intros [= ->] | apply Hg].
  - discriminate.
Qed.

Lemma research_one_returns (fuel : nat) (s : string)
    (acc : dict (list WebsiteReport) * dict (option string)) :
  consistent acc ->
  returns (E := E) (research_one self fuel s acc)
    (fun acc' => consistent acc' /\ dict_keys acc'.1 = add_key (dict_keys acc.1) s).
Proof.
  intros [Hkeys Hempty].
  assert (Hstep : forall reps text, (reps = [] -> text = Some placeholder) ->
            consistent (dict_set s reps acc.1, dict_set s text acc.2)
            /\ dict_keys (dict_set s reps acc.1, dict_set s text acc.2).1
               = add_key (dict_keys acc.1) s).
  { intros reps text Htext. split; [split |]; simpl.
    - now rewrite !dict_keys_set, Hkeys.
    - intros s0 Hget. destruct (decide (s = s0)) as [<- | Hne].
      + rewrite dict_get_set_eq in Hget. injection Hget as ->.
        rewrite dict_get_set_eq, Htext; reflexivity.
      + rewrite dict_get_set_ne in Hget by exact Hne.
        rewrite dict_get_set_ne by exact Hne. auto.
    - apply dict_keys_set. }
  unfold research_one. apply returns_bind.
  eapply returns_conseq; [apply returns_any |]. intros result _.
  destruct (reports result) as [| r reps] eqn:Hreps; simpl.
  - apply returns_ret. now apply Hstep.
  - apply returns_bind. eapply returns_conseq; [apply returns_any |].
    intros text _. apply returns_ret. apply Hstep. discriminate.
Qed.

Lemma collect_returns (fuel : nat) (subs : list string) :
  forall acc, consistent acc ->
    returns (E := E) (for_in subs acc (research_one self fuel))
      (fun acc' => consistent acc'
                   /\ dict_keys acc'.1 = fold_left add_key subs (dict_keys acc.1)).
Proof.
  induction subs as [| s subs IH]; intros acc Hacc; simpl.
  - apply returns_ret. auto.
  - apply returns_bind.
    eapply returns_conseq; [now apply research_one_returns |].
    intros acc1 [Hc1 Hk1]. simpl.
    eapply returns_conseq; [now apply IH |].
    intros acc2 [Hc2 Hk2]. simpl. split; [exact Hc2 |]. now rewrite Hk2, Hk1.
Qed.

Lemma research_returns (fuel : nat) (q : string) :
  returns (E := E) (research self fuel q) assembled.
Proof.
  unfold research. apply returns_bind.
  eapply returns_conseq; [apply returns_any |]. intros resp _.
  apply returns_bind. eapply returns_conseq; [apply returns_any |]. intros subs _.
  apply returns_bind. eapply returns_conseq.
  { apply collect_returns. split; [reflexivity | intros s [=]]. }
  intros [af sr] [[Hkeys Hempty] Hfold]. simpl in *.
  apply returns_bind. eapply returns_conseq; [apply returns_any |]. intros es _.
  apply returns_bind. eapply returns_conseq; [apply returns_any |]. intros co _.
  apply returns_bind.
  destruct (section_texts sr) as [e | sections] eqn:Hsec;
    [apply sat_raise; intros ? [=] |].
  apply returns_ret. destruct (section_texts_ok sr sections Hsec) as [Hsk Hsg].
  apply returns_bind. eapply returns_conseq; [apply returns_any |]. intros stamp _.
  apply returns_bind. eapply returns_conseq; [apply returns_any |]. intros u _.
  apply returns_bind. eapply returns_conseq; [apply returns_any |]. intros stamp2 _.
  apply returns_ret. exists sections, es, co. simpl.
  split; [reflexivity |]. split; [now rewrite Hsk, Hkeys, Hfold |].
  split; [exact Hfold |]. split; [| reflexivity].
  intros s Hs. apply Hsg. now apply Hempty.
Qed.


(** C8, as the code has it.  The text of every report [research] returns
    is the title, a summary, one section per entry of a dictionary
    [sections], and a conclusion.  The keys of [sections] are the declared
    subtopics, each once, at its first occurrence; when the declared
    subtopics are pairwise distinct they are the declared subtopics in
    order.  A subtopic whose findings are empty has the placeholder as
    its section. *)
Theorem one_section_per_distinct_subtopic (fuel : nat) (q : string)
    (w : W E) (rr : ResearchReport) (w' : W E) (t : list event) :
  research self fuel q w = (Ok rr, w', t) ->
  exists sections executive_summary conclusion,
    final_report rr = join "" (final_report_parts executive_summary sections conclusion)
    /\ dict_keys sections = first_seen (subcomponents rr)
    /\ NoDup (dict_keys sections)
    /\ (forall s, s ∈ dict_keys sections <-> s ∈ subcomponents rr)
    /\ (NoDup (subcomponents rr) -> dict_keys sections = subcomponents rr)
    /\ (forall s, dict_get s (findings rr) = Some [] ->
                  dict_get s sections
                  = Some ("No relevant information found for this topic." +:+ nl)).
Proof.
  intros Hrun.
  destruct (returns_run _ _ _ _ _ _ (research_returns fuel q) Hrun)
    as (sr & es & co & Htext & Hkeys & _ & Hempty & _).
  exists sr, es, co. split; [exact Htext |]. split; [exact Hkeys |].
  rewrite Hkeys. split; [apply first_seen_NoDup |].
  split; [intros s; apply first_seen_elem |].
  split; [apply first_seen_distinct | exact Hempty].
Qed.

End Research.

(** The theorem above at a run with two subtopics, the second of which
    finds no evidence. *)

Lemma one_section_per_distinct_subtopic_witness :
  exists rr w' t,
    research (E := env_two_subtopics) researcher2 5 "x" 0%nat = (Ok rr, w', t)
    /\ subcomponents rr = ["a"; "b"]
    /\ dict_get "b" (findings rr) = Some []
    /\ exists sections executive_summary conclusion,
         final_report rr
         = join "" (final_report_parts executive_summary sections conclusion)
         /\ dict_keys sections = first_seen (subcomponents rr)
         /\ NoDup (dict_keys sections)
         /\ (forall s, s ∈ dict_keys sections <-> s ∈ subcomponents rr)
         /\ (NoDup (subcomponents rr) -> dict_keys sections = subcomponents rr)
         /\ (forall s, dict_get s (findings rr) = Some [] ->
                       dict_get s sections
                       = Some ("No relevant information found for this topic." +:+ nl)).
Proof.
  eexists _, _, _. split; [vm_compute; reflexivity |].
  split; [reflexivity |]. split; [reflexivity |].
  eapply (one_section_per_distinct_subtopic (E := env_two_subtopics) researcher2 5 "x" 0%nat).
  vm_compute. reflexivity.
Defined.

(** C8, as stated, fails: the model names the subtopic ["a"] twice, the
    report declares two subtopics and its text has one section. *)
Lemma repeated_subtopic_one_section :
  exists rr w' t,
    research (E := env_twice) researcher2 5 "x" 0%nat = (Ok rr, w', t)
    /\ subcomponents rr = ["a"; "a"]
    /\ final_report rr
       = join "" (final_report_parts
                    ("## Executive Summary" +:+ nl +:+ nl +:+ "text" +:+ nl)
                    [("a", "text")]
                    (nl +:+ "## Conclusion" +:+ nl +:+ nl +:+ "text" +:+ nl)).
Proof.
  eexists _, _, _. split; [vm_compute; reflexivity |]. split; reflexivity.
Qed.

(** C6 at its failing inputs.  A decomposition that is the empty list is
    taken as it is: the report declares no subtopic, not the query itself,
    and nothing is researched.  A decomposition request that raises ends
    [research] with that exception. *)
Theorem decomposition_without_fallback :
  (exists rr w' t,
     research (E := env_empty_decomposition) researcher2 5 "x" 0%nat = (Ok rr, w', t)
     /\ subcomponents rr = []
     /\ findings rr = []
     /\ searched t = [])
  /\ research (E := env_failing) researcher2 5 "x" 0%nat
     = (Raised (Exception "APIConnectionError"), 1%nat, [EvTools (DecomposePrompt "x")]).
Proof.
  split; [| vm_compute; reflexivity].
  eexists _, _, _. split; [vm_compute; reflexivity |]. repeat split.
Qed.

(** * Further properties of the code *)

(** ** More rules *)

Section MoreRules.

Context {E : Env}.

Lemma sat_always {A : Type} (m : M E A) (P : result A -> list event -> Prop) :
  (forall r t, P r t) -> sat m P.
Proof. intros H w. destruct (m w) as [[r w1] t]. apply H. Qed.

Lemma sat_and {A : Type} (m : M E A) (P Q : result A -> list event -> Prop) :
  sat m P -> sat m Q -> sat m (fun r t => P r t /\ Q r t).
Proof.
  intros HP HQ w. specialize (HP w). specialize (HQ w).
  destruct (m w) as [[r w1] t]. auto.
Qed.

Lemma returns_try_except {A : Type} (m : M E A) (h : exn -> M E A) (Q : A -> Prop) :
  returns m Q -> (forall e, returns (h e) Q) -> returns (try_except m h) Q.
Proof.
  intros Hm Hh. apply sat_try_except. eapply sat_conseq; [exact Hm |]. simpl.
  intros [a | e |] t Ha; auto.
  eapply sat_conseq; [apply Hh |]. auto.
Qed.

Lemma returns_external {A : Type} ev (f : W E -> (exn + A) * W E) (Q : A -> Prop) :
  (forall a, Q a) -> returns (external ev f) Q.
Proof. intros H. apply sat_external; [intros a ? [= <-]; apply H | intros e ? [=]]. Qed.

End MoreRules.

(** ** Searching *)

Section Search.

Context {E : Env} (self : CustomResearcher).

Lemma links_loop_spec (hrefs : list (option string)) :
  forall links,
    exists extra,
      links_loop self hrefs links = links ++ extra
      /\ Forall (fun l => startswith_http l = true) extra
      /\ sublist (map Some extra) hrefs
      /\ Z.of_nat (length (links ++ extra))
         <= Z.max (Z.of_nat (length links) + 1) (search_results_per_query self).
Proof.
  induction hrefs as [| href rest IH]; intros links; simpl.
  - exists []. rewrite app_nil_r. repeat split; [constructor | constructor | lia].
  - set (links1 := match href with
                   | Some h => if truthy href && startswith_http h then links ++ [h] else links
                   | None => links
                   end).
    assert (H1 : exists one, links1 = links ++ one
                   /\ Forall (fun l => startswith_http l = true) one
                   /\ sublist (map Some one) [href]
                   /\ (length one <= 1)%nat).
    { subst links1. destruct href as [h |].
      - destruct (truthy (Some h) && startswith_http h) eqn:Hc.
        + exists [h]. apply andb_true_iff in Hc as [_ Hh].
          repeat split; [constructor; [exact Hh | constructor] | reflexivity | simpl; lia].
        + exists []. rewrite app_nil_r.
          repeat split; [constructor | apply sublist_nil_l | simpl; lia].
      - exists []. rewrite app_nil_r.
        repeat split; [constructor | apply sublist_nil_l | simpl; lia]. }
    destruct H1 as (one & Hone & Fone & Sone & Lone). rewrite Hone.
    destruct (Z.of_nat (length (links ++ one)) >=? search_results_per_query self) eqn:Hcap.
    + exists one. split; [reflexivity |]. split; [exact Fone |]. split.
      * change (href :: rest) with ([href] ++ rest). now apply sublist_inserts_r.
      * rewrite length_app. lia.
    + destruct (IH (links ++ one)) as (extra & Heq & Fe & Se & Le).
      exists (one ++ extra). rewrite Heq, <- app_assoc.
      split; [reflexivity |]. split; [apply Forall_app; auto |]. split.
      * rewrite map_app. change (href :: rest) with ([href] ++ rest).
        now apply sublist_app.
      * rewrite Z.geb_leb in Hcap. apply Z.leb_gt in Hcap. rewrite app_assoc.
        rewrite !length_app in *. lia.
Qed.

Lemma scrape_links (q : string) (w : W E) (links : list string) (w' : W E) (t : list event) :
  _scrape_google_serp self q w = (Ok links, w', t) ->
  Forall (fun l => startswith_http l = true) links
  /\ Z.of_nat (length links) <= Z.max 1 (search_results_per_query self)
  /\ (forall hrefs w1,
        serp_hrefs E q (search_results_per_query self) w = (inr hrefs, w1) ->
        sublist (map Some links) hrefs).
Proof.
  unfold _scrape_google_serp, try_except, bind, external, ret.
  destruct (serp_hrefs E q (search_results_per_query self) w) as [[e | hrefs] w1] eqn:Hs.
  - destruct e; simpl; intros [= <- <- <-];
      (split; [constructor |]; split; [simpl; lia | intros ? ? [=]]).
  - simpl. intros [= <- <- <-].
    destruct (links_loop_spec hrefs []) as (extra & Heq & Fe & Se & Le).
    simpl in Heq, Le. rewrite Heq.
    split; [exact Fe |]. split; [exact Le |].
    intros hrefs' w1' [= <- <-]. exact Se.
Qed.

(** What the fallback scrape returns: links of the results page, in page
    order, each starting with ["http"], and no more than
    [search_results_per_query] of them, or one when that is below 1. *)
Theorem scrape_links_are_http_and_capped (q : string) (w : W E)
    (links : list string) (w' : W E) (t : list event) :
  _scrape_google_serp self q w = (Ok links, w', t) ->
  Forall (fun l => startswith_http l = true) links
  /\ Z.of_nat (length links) <= Z.max 1 (search_results_per_query self)
  /\ (forall hrefs w1,
        serp_hrefs E q (search_results_per_query self) w = (inr hrefs, w1) ->
        sublist (map Some links) hrefs).
Proof. apply scrape_links. Qed.

Lemma scrape_outcome (q : string) (w : W E) :
  match _scrape_google_serp self q w with
  | (r, _, t) =>
      t = [EvScrape q]
      /\ r <> OutOfFuel
      /\ (forall msg, r <> Raised (RequestException msg))
      /\ (forall msg w1, serp_hrefs E q (search_results_per_query self) w
                         = (inl (RequestException msg), w1) -> r = Ok [])
  end.
Proof.
  unfold _scrape_google_serp, try_except, bind, external, ret.
  destruct (serp_hrefs E q (search_results_per_query self) w) as [[e | hrefs] w1].
  - destruct e; simpl; (split; [reflexivity |]); (split; [discriminate |]);
      (split; [intros ?; discriminate |]); intros ? ? H; try reflexivity; discriminate H.
  - simpl. split; [reflexivity |]. split; [discriminate |].
    split; [intros ?; discriminate | intros ? ? [=]].
Qed.

(** [_google_search] survives a failing primary search.  When the primary
    search answers, its URLs are returned and no scrape is made.  When it
    raises, the result is the result of [_scrape_google_serp], made from
    the world the failed search left: its links (all starting with
    ["http"], capped), the empty list when the results page fails with an
    HTTP error, or its exception, which is never a
    [requests.RequestException]. *)
Theorem search_failure_falls_back (q : string) (w : W E) :
  match googlesearch E q (search_results_per_query self) w with
  | (inr urls, w1) => _google_search self q w = (Ok urls, w1, [EvSearch q])
  | (inl _, w1) =>
      match _scrape_google_serp self q w1 with
      | (r, w2, t2) =>
          _google_search self q w = (r, w2, [EvSearch q; EvScrape q])
          /\ r <> OutOfFuel
          /\ (forall msg, r <> Raised (RequestException msg))
          /\ (forall msg w3, serp_hrefs E q (search_results_per_query self) w1
                             = (inl (RequestException msg), w3) -> r = Ok [])
          /\ (forall urls, r = Ok urls ->
                Forall (fun l => startswith_http l = true) urls
                /\ Z.of_nat (length urls) <= Z.max 1 (search_results_per_query self))
      end
  end.
Proof.
  unfold _google_search, try_except, external.
  destruct (googlesearch E q (search_results_per_query self) w) as [[e | urls] w1];
    [| reflexivity].
  pose proof (scrape_outcome q w1) as Hout.
  pose proof (scrape_links q w1) as Hlinks.
  destruct (_scrape_google_serp self q w1) as [[r w2] t2].
  destruct Hout as (-> & Hr & Hx & Hhttp).
  split; [reflexivity |]. split; [exact Hr |]. split; [exact Hx |]. split; [exact Hhttp |].
  intros urls ->. destruct (Hlinks urls w2 _ eq_refl) as (Hh & Hl & _). auto.
Qed.

End Search.

Lemma scrape_links_are_http_and_capped_witness :
  exists links w' t,
    _scrape_google_serp (E := env_scrape (inr [Some "http://a"; None; Some "/local";
                                               Some ""; Some "https://b"; Some "http://c"]))
      {| max_loops := 3; search_results_per_query := 2 |} "q" 0%nat
    = (Ok links, w', t)
    /\ links = ["http://a"; "https://b"]
    /\ Forall (fun l => startswith_http l = true) links
    /\ Z.of_nat (length links) <= 2.
Proof.
  eexists _, _, _. split; [vm_compute; reflexivity |]. split; [reflexivity |].
  edestruct (scrape_links_are_http_and_capped
               (E := env_scrape (inr [Some "http://a"; None; Some "/local";
                                      Some ""; Some "https://b"; Some "http://c"]))
               {| max_loops := 3; search_results_per_query := 2 |} "q" 0%nat)
    as (Hh & Hl & _); [vm_compute; reflexivity |].
  split; [exact Hh | exact Hl].
Defined.

(** ** Scoring *)

Section Scoring.

Context {E : Env}.

(** An answer that calls [analyze_website_relevance] with arguments that
    carry the keys its declared schema requires is stored as it is: the
    report has the URL and the whole page handed in (the request shows the
    first 10000 characters only) and the score, summary and information of
    the answer. *)
Theorem conforming_analysis_is_stored (q u c : string) (w : W E)
    (tc : tool_call) (rest : list tool_call) (args : tool_args) (w1 : W E) :
  chat_tools E (AnalyzePrompt q u (prefix_of 10000 c)) w
  = (inr {| tool_calls := tc :: rest |}, w1) ->
  function_name tc = "analyze_website_relevance" ->
  function_arguments tc = inr args ->
  conforms "analyze_website_relevance" args = true ->
  exists score summ info,
    relevance_score_arg args = Some score
    /\ summary_arg args = Some summ
    /\ relevant_info_arg args = Some info
    /\ _analyze_website_content u c q w
       = (Ok {| url := u; content := c; relevance_score := score;
                summary := summ; relevant_info := info |},
          w1, [EvTools (AnalyzePrompt q u (prefix_of 10000 c))]).
Proof.
  intros Hresp Hname Hargs Hconf.
  unfold conforms in Hconf. simpl in Hconf. unfold has_key in Hconf. simpl in Hconf.
  apply andb_true_iff in Hconf as [Hs Hconf].
  apply andb_true_iff in Hconf as [Hm Hconf].
  apply andb_true_iff in Hconf as [Hi _].
  apply bool_decide_eq_true_1 in Hs as [score Hs].
  apply bool_decide_eq_true_1 in Hm as [summ Hm].
  apply bool_decide_eq_true_1 in Hi as [info Hi].
  exists score, summ, info. repeat (split; [assumption |]).
  unfold _analyze_website_content, bind, _call_openai_with_tools, external.
  rewrite Hresp. simpl. rewrite Hname. simpl.
  unfold json_loads. rewrite Hargs. simpl.
  rewrite Hs, Hm, Hi. reflexivity.
Qed.

(** An answer that calls [analyze_website_relevance] without one of the
    keys its schema requires makes [_analyze_website_content] raise
    [KeyError] for a required key that is missing. *)
Theorem incomplete_analysis_raises_key_error (q u c : string) (w : W E)
    (tc : tool_call) (rest : list tool_call) (args : tool_args) (w1 : W E) :
  chat_tools E (AnalyzePrompt q u (prefix_of 10000 c)) w
  = (inr {| tool_calls := tc :: rest |}, w1) ->
  function_name tc = "analyze_website_relevance" ->
  function_arguments tc = inr args ->
  conforms "analyze_website_relevance" args = false ->
  exists key,
    In key ["relevance_score"; "summary"; "relevant_info"]
    /\ has_key key args = false
    /\ _analyze_website_content u c q w
       = (Raised (KeyError key), w1, [EvTools (AnalyzePrompt q u (prefix_of 10000 c))]).
Proof.
  intros Hresp Hname Hargs Hconf.
  assert (Hgo : forall r,
             (relevance_score_arg args = None -> r = "relevance_score") ->
             (forall score, relevance_score_arg args = Some score ->
                summary_arg args = None -> r = "summary") ->
             (forall score summ, relevance_score_arg args = Some score ->
                summary_arg args = Some summ ->
                r = "relevant_info" /\ relevant_info_arg args = None) ->
             _analyze_website_content u c q w
             = (Raised (KeyError r), w1, [EvTools (AnalyzePrompt q u (prefix_of 10000 c))])).
  { intros r H1 H2 H3.
    unfold _analyze_website_content, bind, _call_openai_with_tools, external.
    rewrite Hresp. simpl. rewrite Hname. simpl.
    unfold json_loads. rewrite Hargs. simpl.
    destruct (relevance_score_arg args) as [score |]; simpl;
      [| now rewrite (H1 eq_refl)].
    destruct (summary_arg args) as [summ |]; simpl;
      [| now rewrite (H2 score eq_refl eq_refl)].
    destruct (H3 score summ eq_refl eq_refl) as [-> ->]. reflexivity. }
  unfold conforms in Hconf. simpl in Hconf. unfold has_key in Hconf. simpl in Hconf.
  destruct (relevance_score_arg args) as [score |] eqn:Hs.
  - destruct (summary_arg args) as [summ |] eqn:Hm.
    + destruct (relevant_info_arg args) as [info |] eqn:Hi.
      * rewrite !bool_decide_eq_true_2 in Hconf by eauto. discriminate.
      * exists "relevant_info". split; [simpl; auto |]. split.
        { unfold has_key. simpl. rewrite Hi. reflexivity. }
        apply Hgo; [discriminate | discriminate | auto].
    + exists "summary". split; [simpl; auto |]. split.
      { unfold has_key. simpl. rewrite Hm. reflexivity. }
      apply Hgo; [discriminate | auto | discriminate].
  - exists "relevance_score". split; [simpl; auto |]. split.
    { unfold has_key. simpl. rewrite Hs. reflexivity. }
    apply Hgo; [auto | discriminate | discriminate].
Qed.

Lemma analyze_keeps_page (u c q : string) :
  sat (E := E) (_analyze_website_content u c q)
    (fun r t =>
       r <> OutOfFuel
       /\ crawled t = [] /\ searched t = []
       /\ forall rep, r = Ok rep -> content rep = c).
Proof.
  eapply sat_conseq.
  { apply sat_and; [apply analyze_sat |].
    instantiate (1 := fun r _ => forall rep, r = Ok rep -> content rep = c).
    unfold _analyze_website_content. apply returns_bind.
    eapply returns_conseq; [apply returns_any |]. intros resp _.
    destruct (tool_calls resp) as [| tc rest]; [now apply returns_ret |].
    destruct (String.eqb _ _); [| now apply returns_ret].
    apply returns_bind. eapply returns_conseq; [apply returns_any |]. intros args _.
    apply returns_bind. eapply returns_conseq; [apply returns_any |]. intros score _.
    apply returns_bind. eapply returns_conseq; [apply returns_any |]. intros summ _.
    apply returns_bind. eapply returns_conseq; [apply returns_any |]. intros info _.
    now apply returns_ret. }
  simpl. intros r t [(Hr & -> & _) Hc]. auto.
Qed.

End Scoring.

Lemma conforming_analysis_is_stored_witness :
  exists score summ info,
    Some (NFloat 0.75) = Some score /\ Some "s" = Some summ /\ Some "i" = Some info
    /\ _analyze_website_content (E := env_same_page) "http://a" "text" "topic" 0%nat
       = (Ok {| url := "http://a"; content := "text"; relevance_score := score;
                summary := summ; relevant_info := info |},
          1%nat, [EvTools (AnalyzePrompt "topic" "http://a" (prefix_of 10000 "text"))]).
Proof.
  apply (conforming_analysis_is_stored (E := env_same_page) "topic" "http://a" "text" 0%nat
           {| function_name := "analyze_website_relevance";
              function_arguments := inr (relevance_args (NFloat 0.75)) |}
           [] (relevance_args (NFloat 0.75)) 1%nat);
    reflexivity.
Defined.

Lemma incomplete_analysis_raises_key_error_witness :
  exists key,
    In key ["relevance_score"; "summary"; "relevant_info"]
    /\ has_key key (sufficiency_args true) = false
    /\ _analyze_website_content
         (E := scripted (fun _ _ => inr (calls "analyze_website_relevance"
                                           (sufficiency_args true)))
                 one_page some_text)
         "http://a" "text" "topic" 0%nat
       = (Raised (KeyError key), 1%nat,
          [EvTools (AnalyzePrompt "topic" "http://a" (prefix_of 10000 "text"))]).
Proof.
  apply (incomplete_analysis_raises_key_error
           (E := scripted (fun _ _ => inr (calls "analyze_website_relevance"
                                             (sufficiency_args true)))
                   one_page some_text)
           "topic" "http://a" "text" 0%nat
           {| function_name := "analyze_website_relevance";
              function_arguments := inr (sufficiency_args true) |}
           [] (sufficiency_args true) 1%nat);
    reflexivity.
Defined.

(** ** Fetching *)

Lemma extended_refl (P : WebsiteReport -> Prop) reports : extended P reports reports.
Proof. exists []. now rewrite app_nil_r. Qed.

Lemma extended_trans (P : WebsiteReport -> Prop) r0 r1 r2 :
  extended P r0 r1 -> extended P r1 r2 -> extended P r0 r2.
Proof.
  intros (a1 & -> & F1) (a2 & -> & F2). exists (a1 ++ a2).
  rewrite app_assoc. split; [reflexivity | now apply Forall_app].
Qed.

Section Fetching.

Context {E : Env} (self : CustomResearcher).

Lemma visit_url_fetches_once (q u : string) (reports : list WebsiteReport) :
  sat (E := E) (visit_url q u reports) (within 1%nat reports).
Proof.
  unfold visit_url. apply sat_bind.
  eapply sat_conseq; [apply crawl_website_sat |].
  intros r t [[c ->] ->].
  destruct (truthy c) eqn:Hc.
  - apply sat_bind. eapply sat_conseq; [apply analyze_keeps_page |].
    intros [rep | e |] t (Hr & C & S & Hrep); [| | congruence].
    + assert (Htext : has_text rep).
      { unfold has_text. rewrite (Hrep rep eq_refl).
        destruct c as [s |]; simpl in *; [| discriminate].
        intros ->. discriminate. }
      destruct (gt_0_3 (relevance_score rep)); apply sat_ret;
        unfold within; rewrite !crawled_app, !searched_app, C, S; simpl;
        (split; [lia |]; split; [reflexivity |]; intros ? [= <-]).
      * exists [rep]. split; [reflexivity | constructor; [exact Htext | constructor]].
      * apply extended_refl.
    + unfold within. rewrite crawled_app, searched_app, C, S. simpl.
      split; [lia |]. split; [reflexivity | intros ? [=]].
  - apply sat_ret. unfold within. simpl. split; [lia |]. split; [reflexivity |].
    intros ? [= <-]. apply extended_refl.
Qed.

Lemma for_urls_fetches (q : string) (urls : list string) (reports : list WebsiteReport) :
  sat (E := E) (for_in urls reports (visit_url q)) (within (length urls) reports).
Proof.
  apply (sat_for_in (visit_url q)
           (fun _ s => within 1%nat s) (fun xs s => within (length xs) s)).
  - intros x s. apply visit_url_fetches_once.
  - intros s. unfold within. simpl. split; [lia |]. split; [reflexivity |].
    intros ? [= <-]. apply extended_refl.
  - intros x xs s s1 t1 r t2 (L1 & S1 & H1) (L2 & S2 & H2). unfold within.
    rewrite crawled_app, searched_app, length_app, S1, S2. simpl.
    split; [lia |]. split; [reflexivity |].
    intros s2 ->. eapply extended_trans; eauto.
  - intros x xs s e t (L & S & _). unfold within. simpl.
    split; [lia |]. split; [exact S | intros ? [=]].
  - intros x xs s t (L & S & _). unfold within. simpl.
    split; [lia |]. split; [exact S | intros ? [=]].
Qed.

Lemma run_query_fetches (q sq : string) (reports : list WebsiteReport) :
  sat (E := E) (run_query self q sq reports) (per_search reports).
Proof.
  unfold run_query. apply sat_bind.
  eapply sat_conseq; [apply google_search_sat |].
  intros [urls | e |] t (Hr & _ & S & C); [| | congruence].
  - eapply sat_conseq; [apply for_urls_fetches |].
    intros r t2 (L2 & S2 & H2). unfold per_search.
    rewrite crawled_app, searched_app, !length_app, S, C, S2. simpl.
    rewrite length_take in L2. split; [lia | exact H2].
  - unfold per_search. rewrite S, C. simpl. split; [lia | intros ? [=]].
Qed.

Lemma for_queries_fetches (q : string) (qs : list string) (reports : list WebsiteReport) :
  sat (E := E) (for_in qs reports (run_query self q)) (per_search reports).
Proof.
  apply (sat_for_in (run_query self q)
           (fun _ s => per_search s) (fun _ s => per_search s)).
  - intros x s. apply run_query_fetches.
  - intros s. unfold per_search. simpl. split; [lia |].
    intros ? [= <-]. apply extended_refl.
  - intros x xs s s1 t1 r t2 (L1 & H1) (L2 & H2). unfold per_search.
    rewrite crawled_app, searched_app, !length_app.
    split; [lia |]. intros s2 ->. eapply extended_trans; eauto.
  - intros x xs s e t (L & _). split; [exact L | intros ? [=]].
  - intros x xs s t (L & _). split; [exact L | intros ? [=]].
Qed.

Ltac tally :=
  cbv beta; repeat rewrite ?crawled_app, ?searched_app, ?length_app; simpl; lia.

Lemma loop_body_fetches (q : string) (v : loop_vars) :
  sat (E := E) (loop_body self q v)
    (fun r t =>
       (length (crawled t) <= 3 * length (searched t))%nat
       /\ forall p, r = Ok p -> extended has_text (all_reports v) (all_reports (vars_of p))).
Proof.
  unfold loop_body, _call_openai_with_tools. apply sat_bind. apply sat_external;
    [| intros e; split; [tally | intros ? [=]]].
  intros resp.
  destruct (tool_calls resp) as [| tc rest];
    [apply sat_ret; split; [tally | intros ? [= <-]; apply extended_refl] |].
  destruct (negb _);
    [apply sat_ret; split; [tally | intros ? [= <-]; apply extended_refl] |].
  apply sat_bind. eapply sat_conseq; [apply json_loads_sat |].
  intros [args | e |] t0 [Hr0 ->]; [| split; [tally | intros ? [=]] | congruence].
  apply sat_bind. eapply sat_conseq; [apply for_queries_fetches |].
  intros [found | e |] t1 (L1 & H1);
    [| split; [tally | intros ? [=]] | split; [tally | intros ? [=]]].
  specialize (H1 found eq_refl).
  apply sat_bind. apply sat_external; [| intros e; split; [tally | intros ? [=]]].
  intros resp2.
  destruct (tool_calls resp2) as [| tc2 rest2];
    [apply sat_ret; split; [tally | intros ? [= <-]; exact H1] |].
  destruct (String.eqb _ _);
    [| apply sat_ret; split; [tally | intros ? [= <-]; exact H1]].
  apply sat_bind. eapply sat_conseq; [apply json_loads_sat |].
  intros [args2 | e |] t2 [Hr2 ->]; [| split; [tally | intros ? [=]] | congruence].
  destruct (default false (has_sufficient_info args2)); apply sat_ret;
    (split; [tally | intros ? [= <-]; exact H1]).
Qed.

Lemma while_loop_fetches (q : string) (fuel : nat) :
  forall v, sat (E := E) (while_loop self fuel q v)
              (fun r t =>
                 (length (crawled t) <= 3 * length (searched t))%nat
                 /\ forall v1, r = Ok v1 ->
                      extended has_text (all_reports v) (all_reports v1)).
Proof.
  induction fuel as [| fuel IH]; intros v; simpl; destruct (count v <? max_loops self).
  - intros w. simpl. split; [lia | intros ? [=]].
  - apply sat_ret. simpl. split; [lia | intros ? [= <-]; apply extended_refl].
  - apply sat_bind. eapply sat_conseq; [apply loop_body_fetches |].
    intros [p | e |] t1 (L1 & H1); [| split; [exact L1 | intros ? [=]] ..].
    specialize (H1 p eq_refl). destruct p as [v1 | v1]; simpl in *.
    + apply sat_ret. rewrite app_nil_r. split; [exact L1 | intros ? [= <-]; exact H1].
    + eapply sat_conseq; [apply IH |]. intros r t2 (L2 & H2).
      rewrite crawled_app, searched_app, !length_app. split; [lia |].
      intros v2 ->. eapply extended_trans; eauto.
  - apply sat_ret. simpl. split; [lia | intros ? [= <-]; apply extended_refl].
Qed.

Lemma research_subcomponent_fetches (fuel : nat) (q : string) (c : Z) :
  sat (E := E) (_research_subcomponent self fuel q c)
    (fun r t =>
       (length (crawled t) <= 3 * length (searched t))%nat
       /\ forall res, r = Ok res -> Forall has_text (reports res)).
Proof.
  unfold _research_subcomponent. apply sat_bind.
  eapply sat_conseq; [apply while_loop_fetches |].
  intros [v | e |] t [L Hok]; [| split; [exact L | intros ? [=]] ..].
  apply sat_ret. rewrite app_nil_r. split; [exact L |].
  intros ? [= <-]. simpl.
  destruct (Hok v eq_refl) as (acc & Hacc & Hall). simpl in Hacc. now subst acc.
Qed.

(** Whatever the collaborators do and however the run ends, a subtopic run
    fetches at most three pages per search it issues. *)
Theorem at_most_three_fetches_per_search (fuel : nat) (q : string) (c : Z) (w : W E) :
  match _research_subcomponent self fuel q c w with
  | (_, _, t) => (length (crawled t) <= 3 * length (searched t))%nat
  end.
Proof.
  pose proof (research_subcomponent_fetches fuel q c w) as H.
  destruct (_research_subcomponent self fuel q c w) as [[r w'] t]. apply H.
Qed.

(** Every accepted item of a subtopic run carries the non-empty page text
    it was scored on, and there are at most three accepted items per query
    used. *)
Theorem accepted_items_carry_their_page (fuel : nat) (q : string) (c : Z)
    (w : W E) (res : subcomponent_result) (w' : W E) (t : list event) :
  _research_subcomponent self fuel q c w = (Ok res, w', t) ->
  Forall (fun r => content r <> "") (reports res)
  /\ (length (reports res) <= 3 * length (search_queries_used res))%nat.
Proof.
  intros Hrun.
  destruct (sat_run _ _ _ _ _ _ (research_subcomponent_fetches fuel q c) Hrun)
    as [Hb Htext].
  destruct (sat_run _ _ _ _ _ _ (research_subcomponent_sat self fuel q c) Hrun)
    as (_ & _ & Hok).
  destruct (Hok res eq_refl) as (_ & _ & (acc & Hacc & _ & Hsub) & Hs).
  simpl in Hacc. subst acc. split; [exact (Htext res eq_refl) |].
  apply sublist_length in Hsub. rewrite length_map in Hsub. rewrite Hs. lia.
Qed.

End Fetching.

Lemma accepted_items_carry_their_page_witness :
  exists res w' t,
    _research_subcomponent (E := env_five_pages) researcher2 5 "topic" 0 0%nat
    = (Ok res, w', t)
    /\ length (reports res) = 12%nat
    /\ length (search_queries_used res) = 4%nat
    /\ Forall (fun r => content r <> "") (reports res)
    /\ (length (reports res) <= 3 * length (search_queries_used res))%nat.
Proof.
  eexists _, _, _. split; [vm_compute; reflexivity |].
  split; [reflexivity |]. split; [reflexivity |].
  eapply (accepted_items_carry_their_page (E := env_five_pages) researcher2 5 "topic" 0 0%nat).
  vm_compute. reflexivity.
Defined.

(** ** Pages that cannot be fetched *)

Section NoPages.

Context {E : Env} (self : CustomResearcher).

Hypothesis no_page : forall u w, truthy (fetched (arun E u w).1) = false.

Lemma crawl_website_nothing (u : string) :
  sat (E := E) (_crawl_website u)
    (fun r t => exists c, r = Ok c /\ truthy c = false /\ analyzed t = []).
Proof.
  intros w. unfold _crawl_website, try_except, external, ret.
  specialize (no_page u w). destruct (arun E u w) as [[e | c] w1]; simpl in *; eauto.
Qed.

(** What a pass guarantees when nothing can be fetched: no scoring request
    and the evidence as it was. *)
Lemma visit_url_nothing (q u : string) (reports : list WebsiteReport) :
  sat (E := E) (visit_url q u reports) (unchanged reports).
Proof.
  unfold visit_url. apply sat_bind.
  eapply sat_conseq; [apply crawl_website_nothing |].
  intros r t (c & -> & Hc & Ha). rewrite Hc. apply sat_ret.
  unfold unchanged. rewrite app_nil_r. split; [exact Ha | now intros ? [= <-]].
Qed.

Lemma for_in_nothing {A : Type} (body : A -> list WebsiteReport -> M E (list WebsiteReport))
    (xs : list A) (reports : list WebsiteReport) :
  (forall x s, sat (body x s) (unchanged s)) ->
  sat (for_in xs reports body) (unchanged reports).
Proof.
  intros Hbody.
  apply (sat_for_in body (fun _ s => unchanged s) (fun _ s => unchanged s)).
  - exact Hbody.
  - intros s. split; [reflexivity | now intros ? [= <-]].
  - intros x xs0 s s1 t1 r t2 [A1 H1] [A2 H2]. unfold unchanged, analyzed in *.
    rewrite omap_app, A1, A2. split; [reflexivity |].
    intros s2 ->. rewrite (H2 s2 eq_refl). now apply H1.
  - intros x xs0 s e t [A1 _]. split; [exact A1 | intros ? [=]].
  - intros x xs0 s t [A1 _]. split; [exact A1 | intros ? [=]].
Qed.

Lemma run_query_nothing (q sq : string) (reports : list WebsiteReport) :
  sat (E := E) (run_query self q sq reports) (unchanged reports).
Proof.
  unfold run_query. apply sat_bind.
  eapply sat_conseq.
  { apply sat_and; [apply google_search_sat |].
    instantiate (1 := fun _ t => analyzed t = []).
    unfold _google_search. apply sat_try_except. apply sat_external; [reflexivity |].
    intros e. eapply sat_conseq; [apply scrape_sat |]. intros r t [_ ->]. reflexivity. }
  simpl. intros [urls | e |] t [(Hr & _) Ha]; [| split; [exact Ha | intros ? [=]] | congruence].
  eapply sat_conseq; [apply for_in_nothing; intros; apply visit_url_nothing |].
  intros r t2 [A2 H2]. unfold unchanged, analyzed in *.
  rewrite omap_app, Ha, A2. split; [reflexivity | exact H2].
Qed.

Ltac quiet :=
  cbv beta; unfold analyzed in *; repeat rewrite ?omap_app;
  repeat match goal with H : omap _ _ = [] |- _ => rewrite H end; reflexivity.

Lemma loop_body_nothing (q : string) (v : loop_vars) :
  sat (E := E) (loop_body self q v)
    (fun r t => analyzed t = []
                /\ forall p, r = Ok p -> all_reports (vars_of p) = all_reports v).
Proof.
  unfold loop_body, _call_openai_with_tools. apply sat_bind. apply sat_external;
    [| intros e; split; [quiet | intros ? [=]]].
  intros resp.
  destruct (tool_calls resp) as [| tc rest];
    [apply sat_ret; split; [quiet | now intros ? [= <-]] |].
  destruct (negb _); [apply sat_ret; split; [quiet | now intros ? [= <-]] |].
  apply sat_bind. eapply sat_conseq; [apply json_loads_sat |].
  intros [args | e |] t0 [Hr0 ->]; [| split; [quiet | intros ? [=]] | congruence].
  apply sat_bind.
  eapply sat_conseq; [apply for_in_nothing; intros; apply run_query_nothing |].
  intros [found | e |] t1 [A1 H1]; [| split; [quiet | intros ? [=]] ..].
  specialize (H1 found eq_refl). subst found.
  apply sat_bind. apply sat_external; [| intros e; split; [quiet | intros ? [=]]].
  intros resp2.
  destruct (tool_calls resp2) as [| tc2 rest2];
    [apply sat_ret; split; [quiet | now intros ? [= <-]] |].
  destruct (String.eqb _ _); [| apply sat_ret; split; [quiet | now intros ? [= <-]]].
  apply sat_bind. eapply sat_conseq; [apply json_loads_sat |].
  intros [args2 | e |] t2 [Hr2 ->]; [| split; [quiet | intros ? [=]] | congruence].
  destruct (default false (has_sufficient_info args2)); apply sat_ret;
    (split; [quiet | now intros ? [= <-]]).
Qed.

Lemma while_loop_nothing (q : string) (fuel : nat) :
  forall v, sat (E := E) (while_loop self fuel q v)
              (fun r t => analyzed t = []
                          /\ forall v1, r = Ok v1 -> all_reports v1 = all_reports v).
Proof.
  induction fuel as [| fuel IH]; intros v; simpl; destruct (count v <? max_loops self).
  - intros w. split; [reflexivity | intros ? [=]].
  - apply sat_ret. split; [reflexivity | now intros ? [= <-]].
  - apply sat_bind. eapply sat_conseq; [apply loop_body_nothing |].
    intros [p | e |] t1 [A1 H1]; [| split; [exact A1 | intros ? [=]] ..].
    specialize (H1 p eq_refl). destruct p as [v1 | v1]; simpl in *.
    + apply sat_ret. split; [quiet | now intros ? [= <-]].
    + eapply sat_conseq; [apply IH |]. intros r t2 [A2 H2].
      split; [quiet |]. intros v2 ->. rewrite (H2 v2 eq_refl). exact H1.
  - apply sat_ret. split; [reflexivity | now intros ? [= <-]].
Qed.

Lemma research_subcomponent_nothing (fuel : nat) (q : string) (c : Z) :
  sat (E := E) (_research_subcomponent self fuel q c)
    (fun r t => analyzed t = [] /\ forall res, r = Ok res -> reports res = []).
Proof.
  unfold _research_subcomponent. apply sat_bind.
  eapply sat_conseq; [apply while_loop_nothing |].
  intros [v | e |] t [A H]; [| split; [exact A | intros ? [=]] ..].
  apply sat_ret. split; [quiet |]. intros ? [= <-]. simpl. exact (H v eq_refl).
Qed.

End NoPages.

(** When no page can be fetched (every fetch raises, or gives [None] or an
    empty text), the body of the URL loop never raises: after its one
    fetch it returns the evidence as it was, with no scoring request.  So
    a subtopic run makes no scoring request at all and, when it returns,
    returns no evidence. *)
Theorem unfetched_pages_cost_no_scoring {E : Env} (self : CustomResearcher)
    (fuel : nat) (q : string) (c : Z) (w : W E) :
  (forall u w0, truthy (fetched (arun E u w0).1) = false) ->
  (forall u reports w0,
     visit_url q u reports w0 = (Ok reports, (arun E u w0).2, [EvCrawl u]))
  /\ match _research_subcomponent self fuel q c w with
     | (r, _, t) => analyzed t = [] /\ forall res, r = Ok res -> reports res = []
     end.
Proof.
  intros Hno. split.
  - intros u reports w0. specialize (Hno u w0).
    unfold visit_url, bind, _crawl_website, try_except, external, ret.
    destruct (arun E u w0) as [[e | content] w1]; simpl in *;
      [reflexivity | rewrite Hno; reflexivity].
  - pose proof (research_subcomponent_nothing self Hno fuel q c w) as H.
    destruct (_research_subcomponent self fuel q c w) as [[r w'] t]. exact H.
Qed.

Lemma unfetched_pages_cost_no_scoring_witness :
  visit_url (E := env_scrape (inr [Some "http://a"])) "topic" "http://a" [] 0%nat
  = (Ok [], 0%nat, [EvCrawl "http://a"])
  /\ _research_subcomponent (E := env_scrape (inr [Some "http://a"])) researcher2 5 "topic" 0
       0%nat
     = (Ok {| subquery := "topic"; reports := []; loop_count := 0;
              search_queries_used := ["q"] |},
        2%nat,
        [EvTools (GeneratePrompt "topic" [] []); EvSearch "q"; EvScrape "q";
         EvCrawl "http://a"; EvTools (SufficiencyPrompt "topic" [])])
  /\ match _research_subcomponent (E := env_no_pages) researcher2 5 "topic" 0 0%nat with
     | (r, _, t) =>
         length (crawled t) = 4%nat
         /\ analyzed t = [] /\ forall res, r = Ok res -> reports res = []
     end.
Proof.
  destruct (unfetched_pages_cost_no_scoring (E := env_scrape (inr [Some "http://a"]))
              researcher2 5 "topic" 0 0%nat (fun _ _ => eq_refl)) as [Hv _].
  destruct (unfetched_pages_cost_no_scoring (E := env_no_pages) researcher2 5 "topic" 0 0%nat
              (fun _ _ => eq_refl)) as [_ Hr].
  split; [exact (Hv "http://a" [] 0%nat) |]. split; [vm_compute; reflexivity |].
  revert Hr. vm_compute. intros Hr. split; [reflexivity | exact Hr].
Defined.

(** ** The history shown to the query generator *)

Lemma history_audit_app (t1 t2 : list event) :
  forall seen,
    history_audit seen (t1 ++ t2)
    = history_audit seen t1 ++ history_audit (seen ++ searched t1) t2.
Proof.
  induction t1 as [| ev t1 IH]; intros seen; simpl.
  - now rewrite app_nil_r.
  - destruct ev as [p | p | s | s | u | | f x]; try apply IH.
    + destruct p; simpl; rewrite ?IH; reflexivity.
    + rewrite IH. unfold searched. simpl. now rewrite <- app_assoc.
Qed.

Lemma history_audit_quiet (t : list event) :
  generated t = [] -> forall seen, history_audit seen t = [].
Proof.
  induction t as [| ev t IH]; intros Hg seen; simpl; [reflexivity |].
  destruct ev as [p | p | s | s | u | | f x]; try (apply IH; exact Hg).
  destruct p; try (apply IH; exact Hg). discriminate.
Qed.

Section History.

Context {E : Env} (self : CustomResearcher).

Ltac silent :=
  cbv beta; repeat rewrite ?generated_app;
  repeat match goal with H : generated _ = [] |- _ => rewrite H end; reflexivity.

(** After its query-generation request, a pass makes no other. *)
Lemma loop_body_audit (q : string) (v : loop_vars) :
  sat (E := E) (loop_body self q v)
    (fun _ t => history_audit (search_history v) t
                = [(search_history v, search_history v)]).
Proof.
  assert (Hhead : forall (r : result pass) t2, generated t2 = [] ->
            history_audit (search_history v)
              ([EvTools (GeneratePrompt q (knowledge_gaps v) (search_history v))] ++ t2)
            = [(search_history v, search_history v)]).
  { intros _ t2 Hg. simpl. now rewrite history_audit_quiet. }
  unfold loop_body, _call_openai_with_tools. apply sat_bind. apply sat_external;
    [| intros e; reflexivity].
  intros resp.
  eapply sat_conseq with (P := fun _ t2 => generated t2 = []); [| intros r t2; apply (Hhead r)].
  destruct (tool_calls resp) as [| tc rest]; [now apply sat_ret |].
  destruct (negb _); [now apply sat_ret |].
  apply sat_bind. eapply sat_conseq; [apply json_loads_sat |].
  intros [args | e |] t0 [Hr0 ->]; [| reflexivity | congruence].
  apply sat_bind. eapply sat_conseq; [apply for_queries_sat |].
  intros [found | e |] t1 (Hr1 & G1 & _); [| silent | congruence].
  apply sat_bind. apply sat_external; [| intros e; silent].
  intros resp2.
  destruct (tool_calls resp2) as [| tc2 rest2]; [apply sat_ret; silent |].
  destruct (String.eqb _ _); [| apply sat_ret; silent].
  apply sat_bind. eapply sat_conseq; [apply json_loads_sat |].
  intros [args2 | e |] t2 [Hr2 ->]; [| silent | congruence].
  destruct (default false (has_sufficient_info args2)); apply sat_ret; silent.
Qed.

Lemma while_loop_audit (q : string) (fuel : nat) :
  forall v, sat (E := E) (while_loop self fuel q v)
              (fun _ t => Forall (fun p => p.1 = p.2)
                            (history_audit (search_history v) t)).
Proof.
  induction fuel as [| fuel IH]; intros v; simpl; destruct (count v <? max_loops self).
  - intros w. constructor.
  - apply sat_ret. constructor.
  - apply sat_bind. eapply sat_conseq.
    { apply sat_and; [apply loop_body_sat | apply loop_body_audit]. }
    simpl. intros [p | e |] t1 [(_ & _ & Hp) Ha];
      [| rewrite Ha; repeat constructor ..].
    destruct (Hp p eq_refl) as [_ [_ Hh]]. destruct p as [v1 | v1]; simpl in *.
    + apply sat_ret. rewrite app_nil_r, Ha. repeat constructor.
    + eapply sat_conseq; [apply IH |]. intros r t2 H2. simpl in H2.
      rewrite history_audit_app, Ha, <- Hh. constructor; [reflexivity | exact H2].
  - apply sat_ret. constructor.
Qed.

(** Each query-generation request of a subtopic run is shown, as the
    previous searches, exactly the queries the run has searched before
    that request, in order; this holds however the run ends. *)
Theorem generator_is_shown_all_previous_searches (fuel : nat) (q : string) (c : Z)
    (w : W E) :
  match _research_subcomponent self fuel q c w with
  | (_, _, t) => Forall (fun p => p.1 = p.2) (history_audit [] t)
  end.
Proof.
  assert (H : sat (E := E) (_research_subcomponent self fuel q c)
                (fun _ t => Forall (fun p => p.1 = p.2) (history_audit [] t))).
  { unfold _research_subcomponent. apply sat_bind.
    eapply sat_conseq; [apply while_loop_audit |]. simpl.
    intros [v | e |] t Ha; auto. apply sat_ret. now rewrite app_nil_r. }
  exact (H w).
Qed.

Lemma while_loop_counts (q : string) (fuel : nat) :
  forall v, sat (E := E) (while_loop self fuel q v)
              (fun r t => forall v1, r = Ok v1 ->
                 count v1 - count v <= Z.of_nat (length (generated t))
                                    <= count v1 - count v + 1).
Proof.
  induction fuel as [| fuel IH]; intros v; simpl; destruct (count v <? max_loops self).
  - intros w. intros ? [=].
  - apply sat_ret. intros ? [= <-]. simpl. lia.
  - apply sat_bind. eapply sat_conseq; [apply loop_body_sat |].
    intros [p | e |] t1 (_ & G & Hp); [| intros ? [=] ..].
    destruct (Hp p eq_refl) as [Hc _]. destruct p as [v1 | v1]; simpl in *.
    + apply sat_ret. intros ? [= <-]. rewrite app_nil_r, G. simpl. lia.
    + eapply sat_conseq; [apply IH |]. intros r t2 H2 v2 ->.
      specialize (H2 v2 eq_refl). rewrite generated_app, length_app, G. simpl. lia.
  - apply sat_ret. intros ? [= <-]. simpl. lia.
Qed.

Example generator_history_of_two_passes :
  match _research_subcomponent (E := env_same_query) researcher2 5 "topic" 0 0%nat with
  | (_, _, t) => history_audit [] t = [([], []); (["q"], ["q"])]
  end.
Proof. vm_compute. reflexivity. Qed.

(** The counter a subtopic run returns counts the passes that ran to their
    last statement: the run made that many query-generation requests since
    its start, or one more, for a pass ended by [break]. *)
Theorem loop_count_counts_completed_passes (fuel : nat) (q : string) (c : Z)
    (w : W E) (res : subcomponent_result) (w' : W E) (t : list event) :
  _research_subcomponent self fuel q c w = (Ok res, w', t) ->
  loop_count res - c <= Z.of_nat (length (generated t)) <= loop_count res - c + 1.
Proof.
  intros Hrun.
  assert (H : sat (E := E) (_research_subcomponent self fuel q c)
                (fun r t => forall res, r = Ok res ->
                   loop_count res - c <= Z.of_nat (length (generated t))
                                      <= loop_count res - c + 1)).
  { unfold _research_subcomponent. apply sat_bind.
    eapply sat_conseq; [apply while_loop_counts |]. simpl.
    intros [v | e |] t0 Hc; [| intros ? [=] ..].
    apply sat_ret. intros ? [= <-]. rewrite app_nil_r. simpl. exact (Hc v eq_refl). }
  exact (sat_run _ _ _ _ _ _ H Hrun res eq_refl).
Qed.

End History.

Lemma loop_count_counts_completed_passes_witness :
  exists res w' t,
    _research_subcomponent (E := env_same_page) researcher3 5 "topic" 0 0%nat
    = (Ok res, w', t)
    /\ loop_count res = 0 /\ length (generated t) = 1%nat
    /\ loop_count res - 0 <= Z.of_nat (length (generated t)) <= loop_count res - 0 + 1.
Proof.
  eexists _, _, _. split; [vm_compute; reflexivity |].
  split; [reflexivity |]. split; [reflexivity |].
  eapply (loop_count_counts_completed_passes (E := env_same_page) researcher3 5 "topic" 0 0%nat).
  vm_compute. reflexivity.
Defined.

(** ** Writing the report *)

Section Inversion.

Context {E : Env}.

Lemma bind_ok_inv {A B : Type} (m : M E A) (f : A -> M E B) w b w' t :
  bind m f w = (Ok b, w', t) ->
  exists a w1 t1 t2, m w = (Ok a, w1, t1) /\ f a w1 = (Ok b, w', t2) /\ t = t1 ++ t2.
Proof.
  unfold bind. destruct (m w) as [[[a | e |] w1] t1]; try discriminate.
  destruct (f a w1) as [[r w2] t2] eqn:Hf. intros [= -> -> <-].
  exists a, w1, t1, t2. auto.
Qed.

Lemma external_ok_inv {A : Type} ev (f : W E -> (exn + A) * W E) w a w' t :
  external ev f w = (Ok a, w', t) -> f w = (inr a, w') /\ t = [ev].
Proof.
  unfold external. destruct (f w) as [[e | a0] w1]; intros [= <- <- <-]; auto.
Qed.

Lemma ret_ok_inv {A : Type} (a b : A) w w' t :
  ret (E := E) a w = (Ok b, w', t) -> a = b /\ w' = w /\ t = [].
Proof. intros [= <- <- <-]. auto. Qed.

End Inversion.

Tactic Notation "invert_bind" hyp(H) "as" ident(a) ident(w1) ident(t1) ident(t2) ident(H1) :=
  let Ht := fresh "Htrace" in
  apply bind_ok_inv in H as (a & w1 & t1 & t2 & H1 & H & Ht); subst.

Section Report.

Context {E : Env} (self : CustomResearcher).

Lemma report_text_requests (q : string) (subs : list string) (n : nat)
    (found : dict (list WebsiteReport)) (sections : dict (option string)) (w : W E) :
  (exists p, snd (_generate_executive_summary q subs n found w) = [EvText p])
  /\ (exists p, snd (_generate_conclusion q found sections w) = [EvText p]).
Proof.
  split.
  - unfold _generate_executive_summary, try_except, bind, external, ret.
    destruct (chat_text E _ w) as [[e | text] w1]; simpl; eauto.
  - unfold _generate_conclusion, try_except, bind, external, ret.
    destruct (chat_text E _ w) as [[e | text] w1]; simpl; eauto.
Qed.

(** The three text generators never raise, whatever the completion
    request does, and make exactly that one request.  When the request
    fails each returns its fallback text, built from its arguments alone.
    When it succeeds, [_generate_subcomponent_report] returns the content
    of the answer as it is ([None] when there is none), and the other two
    put the content, formatted, under their heading. *)
Theorem report_texts_never_fail (s q : string) (subs : list string) (n : nat)
    (reps : list WebsiteReport) (found : dict (list WebsiteReport))
    (sections : dict (option string)) (w : W E) :
  let p1 := SectionPrompt s (join (nl +:+ nl) (map findings_entry (take 10 reps))) in
  let p2 := SummaryPrompt q subs n
              (map summary_line (filter (fun item => nonempty item.2 = true) found)) in
  let p3 := ConclusionPrompt q (dict_keys found) (total_len found) in
  _generate_subcomponent_report s reps w
  = (Ok match (chat_text E p1 w).1 with
        | inr content => content
        | inl _ => Some (fallback_report s reps)
        end,
     (chat_text E p1 w).2, [EvText p1])
  /\ _generate_executive_summary q subs n found w
     = (Ok match (chat_text E p2 w).1 with
           | inr content =>
               "## Executive Summary" +:+ nl +:+ nl +:+ default "None" content +:+ nl
           | inl _ => fallback_summary q subs n
           end,
        (chat_text E p2 w).2, [EvText p2])
  /\ _generate_conclusion q found sections w
     = (Ok match (chat_text E p3 w).1 with
           | inr content =>
               nl +:+ "## Conclusion" +:+ nl +:+ nl +:+ default "None" content +:+ nl
           | inl _ => fallback_conclusion q found
           end,
        (chat_text E p3 w).2, [EvText p3]).
Proof.
  intros p1 p2 p3. split; [| split].
  - unfold _generate_subcomponent_report, try_except, external, ret. fold p1.
    destruct (chat_text E p1 w) as [[e | content] w1]; reflexivity.
  - unfold _generate_executive_summary, try_except, bind, external, ret. fold p2.
    destruct (chat_text E p2 w) as [[e | content] w1]; reflexivity.
  - unfold _generate_conclusion, try_except, bind, external, ret. fold p3.
    destruct (chat_text E p3 w) as [[e | content] w1]; reflexivity.
Qed.

(** The parts of a run of [research] that returned. *)
Lemma research_ok_inv (fuel : nat) (q : string) (w : W E)
    (rr : ResearchReport) (w' : W E) (t : list event) :
  research self fuel q w = (Ok rr, w', t) ->
  exists resp w1 subs w2 t2 acc w3 t3 t4 stamp w4 w5,
    chat_tools E (DecomposePrompt q) w = (inr resp, w1)
    /\ decomposition q resp w1 = (Ok subs, w2, t2)
    /\ for_in subs ([], []) (research_one self fuel) w2 = (Ok acc, w3, t3)
    /\ write_file E ("research_report_" +:+ stamp +:+ ".md") (saved_text rr) w4 = (inr tt, w5)
    /\ query rr = q /\ subcomponents rr = subs /\ findings rr = acc.1
    /\ sources rr = list_set (all_sources acc.1)
    /\ (searched t4 = [] /\ crawled t4 = [] /\ generated t4 = [])
    /\ t = [EvTools (DecomposePrompt q)] ++ t2 ++ t3 ++ t4
           ++ [EvNow; EvWrite ("research_report_" +:+ stamp +:+ ".md") (saved_text rr);
               EvNow].
Proof.
  intros H. unfold research in H.
  invert_bind H as resp w1 tr0 tr0' Hresp. apply external_ok_inv in Hresp as [Hresp ->].
  invert_bind H as subs w2 tr1 tr1' Hsubs.
  invert_bind H as acc w3 tr2 tr2' Hacc.
  invert_bind H as es w4 tr3 tr3' Hes.
  invert_bind H as co w5 tr4 tr4' Hco.
  invert_bind H as sections w6 tr5 tr5' Hsec.
  destruct (section_texts acc.2) as [e | sections'] eqn:Hst; [discriminate |].
  apply ret_ok_inv in Hsec as (-> & -> & ->).
  invert_bind H as stamp0 w7 tr6 tr6' Hnow. apply external_ok_inv in Hnow as [Hnow ->].
  invert_bind H as u w8 tr7 tr7' Hsave.
  invert_bind H as stamp3 w9 tr8 tr8' Hnow3. apply external_ok_inv in Hnow3 as [Hnow3 ->].
  apply ret_ok_inv in H as (<- & -> & ->).
  unfold _save_report in Hsave.
  invert_bind Hsave as stamp w10 tr9 tr9' Hnow2. apply external_ok_inv in Hnow2 as [Hnow2 ->].
  apply external_ok_inv in Hsave as [Hwrite ->]. destruct u.
  destruct (report_text_requests q subs (total_len acc.1) acc.1 acc.2 w3) as [[p1 Hp1] _].
  rewrite Hes in Hp1. simpl in Hp1. subst tr3.
  destruct (report_text_requests q subs (total_len acc.1) acc.1 acc.2 w4) as [_ [p2 Hp2]].
  rewrite Hco in Hp2. simpl in Hp2. subst tr4.
  exists resp, w1, subs, w2, tr1, acc, w3, tr2, ([EvText p1] ++ [EvText p2] ++ [EvNow]), stamp.
  eexists _, _.
  split; [exact Hresp |]. split; [exact Hsubs |]. split; [exact Hacc |].
  split; [exact Hwrite |].
  do 4 (split; [reflexivity |]). split; [repeat split |].
  rewrite app_nil_r. unfold saved_text. simpl.
  repeat rewrite <- app_assoc. simpl. reflexivity.
Qed.

(** A report [research] returns has been written to disk: the last three
    external calls of the run are the clock, for the file name, the write
    of [research_report_<time>.md], whose text is the report text, the
    numbered sources and the time stamp of the report, and one more
    reading of the clock, for the closing message. *)
Theorem returned_report_was_saved (fuel : nat) (q : string) (w : W E)
    (rr : ResearchReport) (w' : W E) (t : list event) :
  research self fuel q w = (Ok rr, w', t) ->
  exists before stamp,
    t = before ++ [EvNow;
                   EvWrite ("research_report_" +:+ stamp +:+ ".md")
                     (final_report rr +:+ nl +:+ nl +:+ "## Sources" +:+ nl +:+
                      join "" (imap (fun i source =>
                                       pretty (S i) +:+ ". " +:+ source +:+ nl)
                                    (sources rr)) +:+
                      nl +:+ nl +:+ "*Report generated on: " +:+ timestamp rr +:+ "*");
                   EvNow].
Proof.
  intros H.
  destruct (research_ok_inv fuel q w rr w' t H)
    as (resp & w1 & subs & w2 & t2 & acc & w3 & t3 & t4 & stamp & w4 & w5
        & _ & _ & _ & _ & _ & _ & _ & _ & _ & Ht).
  exists ([EvTools (DecomposePrompt q)] ++ t2 ++ t3 ++ t4), stamp.
  rewrite Ht. repeat rewrite <- app_assoc. reflexivity.
Qed.

(** When the answer to the decomposition request carries no tool call, or
    its first tool call is not [decompose_query], a report that [research]
    returns is about the query itself: it is the only declared subtopic
    and the only key of the findings. *)
Theorem undecomposed_query_is_its_own_subtopic (fuel : nat) (q : string) (w : W E)
    (resp : response) (w1 : W E) (rr : ResearchReport) (w' : W E) (t : list event) :
  chat_tools E (DecomposePrompt q) w = (inr resp, w1) ->
  first_call_is "decompose_query" resp = false ->
  research self fuel q w = (Ok rr, w', t) ->
  query rr = q /\ subcomponents rr = [q] /\ dict_keys (findings rr) = [q].
Proof.
  intros Hresp Hfirst H.
  destruct (returns_run _ _ _ _ _ _ (research_returns self fuel q) H)
    as (_ & _ & _ & _ & _ & Hkeys & _).
  destruct (research_ok_inv fuel q w rr w' t H)
    as (resp' & w1' & subs & w2 & t2 & acc & w3 & t3 & t4 & stamp & w4 & w5
        & Hresp' & Hsubs & _ & _ & Hq & Hs & _).
  rewrite Hresp in Hresp'. injection Hresp' as <- <-.
  assert (Hone : subs = [q]).
  { unfold decomposition, first_call_is in *.
    destruct (tool_calls resp) as [| tc rest]; [now apply ret_ok_inv in Hsubs as [-> _] |].
    rewrite Hfirst in Hsubs. now apply ret_ok_inv in Hsubs as [-> _]. }
  rewrite Hone in Hs. split; [exact Hq |]. split; [exact Hs |].
  rewrite Hkeys, Hs. reflexivity.
Qed.

(** When the file cannot be written, [research] returns no report: the
    failure of [_save_report] is not caught. *)
Theorem unsaved_report_is_not_returned (fuel : nat) (q : string) (w : W E) :
  (forall f text w0, exists e w1, write_file E f text w0 = (inl e, w1)) ->
  forall rr, fst (fst (research self fuel q w)) <> Ok rr.
Proof.
  intros Hw rr Hok.
  destruct (research self fuel q w) as [[r w'] t] eqn:H. simpl in Hok. subst r.
  destruct (research_ok_inv fuel q w rr w' t H)
    as (resp & w1 & subs & w2 & t2 & acc & w3 & t3 & t4 & stamp & w4 & w5
        & _ & _ & _ & Hwrite & _).
  destruct (Hw ("research_report_" +:+ stamp +:+ ".md") (saved_text rr) w4) as (e & w9 & He).
  congruence.
Qed.

End Report.

Lemma returned_report_was_saved_witness :
  exists rr w' t before stamp,
    research (E := env_two_subtopics) researcher2 5 "x" 0%nat = (Ok rr, w', t)
    /\ sources rr = ["http://a"]
    /\ t = before ++ [EvNow;
                      EvWrite ("research_report_" +:+ stamp +:+ ".md")
                        (final_report rr +:+ nl +:+ nl +:+ "## Sources" +:+ nl +:+
                         join "" (imap (fun i source =>
                                          pretty (S i) +:+ ". " +:+ source +:+ nl)
                                       (sources rr)) +:+
                         nl +:+ nl +:+ "*Report generated on: " +:+ timestamp rr +:+ "*");
                      EvNow].
Proof.
  assert (Hrun : exists rr w' t,
             research (E := env_two_subtopics) researcher2 5 "x" 0%nat = (Ok rr, w', t)
             /\ sources rr = ["http://a"]).
  { eexists _, _, _. split; [vm_compute; reflexivity | reflexivity]. }
  destruct Hrun as (rr & w' & t & Hrun & Hsrc).
  destruct (returned_report_was_saved (E := env_two_subtopics) researcher2 5 "x" 0%nat
              rr w' t Hrun) as (before & stamp & Ht).
  exists rr, w', t, before, stamp. auto.
Defined.

Lemma undecomposed_query_is_its_own_subtopic_witness :
  exists rr w' t,
    research (E := env_silent) researcher2 5 "x" 0%nat = (Ok rr, w', t)
    /\ query rr = "x" /\ subcomponents rr = ["x"] /\ dict_keys (findings rr) = ["x"].
Proof.
  eexists _, _, _. split; [vm_compute; reflexivity |].
  eapply (undecomposed_query_is_its_own_subtopic (E := env_silent) researcher2 5 "x" 0%nat
            no_tool_call 1%nat); [reflexivity | reflexivity | vm_compute; reflexivity].
Defined.

Lemma unsaved_report_is_not_returned_witness :
  fst (fst (research (E := env_read_only) researcher2 5 "x" 0%nat))
  = Raised (Exception "PermissionError")
  /\ forall rr, fst (fst (research (E := env_read_only) researcher2 5 "x" 0%nat)) <> Ok rr.
Proof.
  split; [vm_compute; reflexivity |].
  apply (unsaved_report_is_not_returned (E := env_read_only) researcher2 5 "x" 0%nat).
  intros f text w0. exists (Exception "PermissionError"), w0. reflexivity.
Defined.

(** ** Termination of the whole program *)

Section Totality.

Context {E : Env}.

Lemma total_ret {A : Type} (a : A) : total (E := E) (ret a).
Proof. apply sat_ret. discriminate. Qed.

Lemma total_raise {A : Type} (e : exn) : total (E := E) (raise (A := A) e).
Proof. apply sat_raise. discriminate. Qed.

Lemma total_external {A : Type} ev (f : W E -> (exn + A) * W E) : total (external ev f).
Proof. apply sat_external; discriminate. Qed.

Lemma total_bind {A B : Type} (m : M E A) (f : A -> M E B) :
  total m -> (forall a, total (f a)) -> total (bind m f).
Proof.
  intros Hm Hf. apply sat_bind. eapply sat_conseq; [exact Hm |]. simpl.
  intros [a | e |] t Hr; [| discriminate | congruence].
  eapply sat_conseq; [apply Hf |]. auto.
Qed.

Lemma total_try_except {A : Type} (m : M E A) (h : exn -> M E A) :
  total m -> (forall e, total (h e)) -> total (try_except m h).
Proof.
  intros Hm Hh. apply sat_try_except. eapply sat_conseq; [exact Hm |]. simpl.
  intros [a | e |] t Hr; [discriminate | | congruence].
  eapply sat_conseq; [apply Hh |]. auto.
Qed.

Lemma total_for_in {A S : Type} (body : A -> S -> M E S) (xs : list A) :
  (forall x s, total (body x s)) -> forall s, total (for_in xs s body).
Proof.
  intros Hbody. induction xs as [| x xs IH]; intros s; simpl.
  - apply total_ret.
  - apply total_bind; auto.
Qed.

End Totality.

Section WholeProgram.

Context {E : Env} (self : CustomResearcher) (fuel : nat).

Hypothesis enough : (Z.to_nat (max_loops self) <= fuel)%nat.

Lemma research_subcomponent_total (q : string) :
  total (E := E) (_research_subcomponent self fuel q 0).
Proof.
  eapply sat_conseq; [apply research_subcomponent_sat |]. simpl.
  intros r t (_ & Hf & _). apply Hf. now rewrite Z.sub_0_r.
Qed.

Lemma research_total (q : string) : total (E := E) (research self fuel q).
Proof.
  unfold research.
  apply total_bind; [apply total_external |]. intros resp.
  apply total_bind.
  { unfold decomposition. destruct (tool_calls resp) as [| tc rest]; [apply total_ret |].
    destruct (String.eqb _ _); [| apply total_ret].
    apply total_bind; [| intros; apply total_ret].
    unfold json_loads. destruct (function_arguments tc); [apply total_raise | apply total_ret]. }
  intros subs. apply total_bind.
  { apply total_for_in. intros s acc. unfold research_one.
    apply total_bind; [apply research_subcomponent_total |]. intros result.
    destruct (nonempty (reports result)); [| apply total_ret].
    apply total_bind; [| intros; apply total_ret].
    unfold _generate_subcomponent_report.
    apply total_try_except; [apply total_external | intros; apply total_ret]. }
  intros acc. apply total_bind.
  { unfold _generate_executive_summary. apply total_try_except; [| intros; apply total_ret].
    apply total_bind; [apply total_external | intros; apply total_ret]. }
  intros es. apply total_bind.
  { unfold _generate_conclusion. apply total_try_except; [| intros; apply total_ret].
    apply total_bind; [apply total_external | intros; apply total_ret]. }
  intros co. apply total_bind.
  { destruct (section_texts acc.2); [apply total_raise | apply total_ret]. }
  intros sections. apply total_bind; [apply total_external |]. intros stamp.
  apply total_bind.
  { unfold _save_report. apply total_bind; [apply total_external |].
    intros stamp2. apply total_external. }
  intros u. apply total_bind; [apply total_external | intros; apply total_ret].
Qed.

Lemma research_all_returns (queries : list string) :
  sat (E := E) (research_all self fuel queries) (fun r _ => r = Ok tt).
Proof.
  unfold research_all.
  apply (sat_for_in _ (fun _ _ r _ => r = Ok tt) (fun _ _ r _ => r = Ok tt)); auto;
    try discriminate.
  - intros query []. apply sat_try_except. apply sat_bind.
    eapply sat_conseq; [apply research_total |]. simpl.
    intros [rr | e |] t Hr; [now apply sat_ret | now apply sat_ret | congruence].
  - intros s. now destruct s.
Qed.

End WholeProgram.

(** [research] ends for every behaviour of its collaborators: with
    [max_loops] passes allowed per subtopic it returns a report or raises,
    and does not run on. *)
Theorem research_terminates {E : Env} (self : CustomResearcher) (fuel : nat)
    (q : string) (w : W E) :
  (Z.to_nat (max_loops self) <= fuel)%nat ->
  fst (fst (research self fuel q w)) <> OutOfFuel.
Proof.
  intros Hfuel. pose proof (research_total self fuel Hfuel q w) as H.
  destruct (research self fuel q w) as [[r w'] t]. exact H.
Qed.

(** [main] fails only at start-up.  When [config.json] cannot be loaded or
    lacks a key, or the client constructor raises, the exception of
    [__init__] leaves [main] before any external call; once the researcher
    is built, [main] ends normally whatever the collaborators do, since a
    failing [research] is caught. *)
Theorem main_fails_only_at_startup {E : Env} (loaded : exn + config)
    (openai : string -> option exn) (fuel : nat) (w : W E) :
  match __init__ loaded openai with
  | inl e => main loaded openai fuel w = (Raised e, w, [])
  | inr researcher =>
      (Z.to_nat (max_loops researcher) <= fuel)%nat ->
      exists w' t, main loaded openai fuel w = (Ok tt, w', t)
  end.
Proof.
  unfold main. destruct (__init__ loaded openai) as [e | researcher]; [reflexivity |].
  intros Hfuel.
  pose proof (research_all_returns researcher fuel Hfuel
                ["why did snow white 2025 movie fail"] w) as H.
  destruct (research_all researcher fuel _ w) as [[r w'] t]. subst r. eauto.
Qed.

Lemma research_terminates_witness :
  fst (fst (research (E := env_same_query) researcher2 2 "x" 0%nat)) <> OutOfFuel.
Proof.
  apply (research_terminates (E := env_same_query) researcher2 2 "x" 0%nat).
  simpl. lia.
Defined.

Lemma main_fails_only_at_startup_witness :
  (exists w' t,
     main (E := env_failing)
       (inr {| api_key := Some "sk"; cfg_max_loops := Some 2;
               cfg_search_results_per_query := Some 5 |}) (fun _ => None) 2 0%nat
     = (Ok tt, w', t))
  /\ main (E := env_failing)
       (inr {| api_key := Some "sk"; cfg_max_loops := None;
               cfg_search_results_per_query := Some 5 |}) (fun _ => None) 2 0%nat
     = (Raised (KeyError "max_loops"), 0%nat, [])
  /\ main (E := env_failing)
       (inr {| api_key := Some ""; cfg_max_loops := Some 2;
               cfg_search_results_per_query := Some 5 |})
       (fun key => if String.eqb key "" then Some (Exception "OpenAIError") else None)
       2 0%nat
     = (Raised (Exception "OpenAIError"), 0%nat, []).
Proof.
  split; [| split].
  - apply (main_fails_only_at_startup (E := env_failing)
             (inr {| api_key := Some "sk"; cfg_max_loops := Some 2;
                     cfg_search_results_per_query := Some 5 |}) (fun _ => None) 2 0%nat).
    simpl. lia.
  - apply (main_fails_only_at_startup (E := env_failing)
             (inr {| api_key := Some "sk"; cfg_max_loops := None;
                     cfg_search_results_per_query := Some 5 |}) (fun _ => None) 2 0%nat).
  - apply (main_fails_only_at_startup (E := env_failing)
             (inr {| api_key := Some ""; cfg_max_loops := Some 2;
                     cfg_search_results_per_query := Some 5 |})
             (fun key => if String.eqb key "" then Some (Exception "OpenAIError") else None)
             2 0%nat).
Defined.

(** ** Findings *)

Lemma dict_get_key {V : Type} (s : string) (d : dict V) :
  s ∈ dict_keys d -> exists v, dict_get s d = Some v.
Proof.
  induction d as [| [k v] d IH]; simpl; intros Hin; [inversion Hin |].
  destruct (String.eqb k s) eqn:Hk; [eauto |].
  apply String.eqb_neq in Hk. apply elem_of_cons in Hin as [-> | Hin]; [congruence | auto].
Qed.

Lemma dict_set_values {V : Type} (P : V -> Prop) (k : string) (v : V) (d : dict V) :
  Forall (fun item => P item.2) d -> P v -> Forall (fun item => P item.2) (dict_set k v d).
Proof.
  intros Hd Hv. induction d as [| [k' v'] d IH]; simpl.
  - repeat constructor. exact Hv.
  - apply Forall_cons in Hd as [Hh Ht].
    destruct (String.eqb k' k); constructor; auto.
Qed.

Lemma all_sources_empty (d : dict (list WebsiteReport)) :
  Forall (fun item => item.2 = []) d -> all_sources d = [].
Proof.
  unfold all_sources, dict_values.
  induction 1 as [| [k v] d Hv Hd IH]; simpl; [reflexivity |].
  simpl in Hv. subst v. exact IH.
Qed.

Section Findings.

Context {E : Env} (self : CustomResearcher).

(** In a report [research] returns, the findings have one entry per
    declared subtopic, in the order of first declaration: every declared
    subtopic can be looked up, and nothing else can. *)
Theorem every_subtopic_has_findings (fuel : nat) (q : string) (w : W E)
    (rr : ResearchReport) (w' : W E) (t : list event) :
  research self fuel q w = (Ok rr, w', t) ->
  dict_keys (findings rr) = first_seen (subcomponents rr)
  /\ (forall s, s ∈ subcomponents rr -> exists reps, dict_get s (findings rr) = Some reps)
  /\ (forall s reps, (s, reps) ∈ findings rr -> s ∈ subcomponents rr).
Proof.
  intros H.
  destruct (returns_run _ _ _ _ _ _ (research_returns self fuel q) H)
    as (_ & _ & _ & _ & _ & Hkeys & _).
  split; [exact Hkeys |]. split.
  - intros s Hs. apply dict_get_key. rewrite Hkeys. now apply first_seen_elem.
  - intros s reps Hin. apply first_seen_elem. rewrite <- Hkeys.
    unfold dict_keys. apply list_elem_of_fmap. now exists (s, reps).
Qed.

Lemma research_subcomponent_idle (fuel : nat) (q : string) (w : W E) :
  max_loops self <= 0 ->
  _research_subcomponent self fuel q 0 w
  = (Ok {| subquery := q; reports := []; loop_count := 0; search_queries_used := [] |},
     w, []).
Proof.
  intros Hz. apply Z.ltb_ge in Hz.
  unfold _research_subcomponent, bind. destruct fuel; simpl; rewrite Hz; reflexivity.
Qed.

Lemma collect_idle (fuel : nat) (subs : list string) :
  max_loops self <= 0 ->
  forall acc, Forall (fun item => item.2 = []) acc.1 ->
    sat (E := E) (for_in subs acc (research_one self fuel))
      (fun r t => t = [] /\ forall acc', r = Ok acc' -> Forall (fun item => item.2 = []) acc'.1).
Proof.
  intros Hz. induction subs as [| s subs IH]; intros acc Hacc; simpl.
  - apply sat_ret. split; [reflexivity | now intros ? [= <-]].
  - apply sat_bind. intros w. unfold research_one, bind.
    rewrite research_subcomponent_idle by exact Hz. simpl.
    eapply sat_conseq; [apply IH |].
    + simpl. now apply (dict_set_values (fun v => v = [])).
    + simpl. auto.
Qed.

(** With [max_loops] at 0 or below, [research] researches nothing: between
    the decomposition request and the report texts it makes no external
    call, and a report it returns has empty findings for every subtopic
    and no sources. *)
Theorem no_loops_no_findings (fuel : nat) (q : string) (w : W E)
    (rr : ResearchReport) (w' : W E) (t : list event) :
  max_loops self <= 0 ->
  research self fuel q w = (Ok rr, w', t) ->
  Forall (fun item => item.2 = []) (findings rr)
  /\ sources rr = []
  /\ searched t = [] /\ crawled t = [] /\ generated t = [].
Proof.
  intros Hz H.
  destruct (research_ok_inv self fuel q w rr w' t H)
    as (resp & w1 & subs & w2 & t2 & acc & w3 & t3 & t4 & stamp & w4 & w5
        & _ & Hsubs & Hacc & _ & _ & _ & Hf & Hsrc & (S4 & C4 & G4) & Ht).
  destruct (sat_run _ _ _ _ _ _ (collect_idle fuel subs Hz ([], []) (Forall_nil_2 _)) Hacc)
    as [-> Hempty].
  specialize (Hempty acc eq_refl).
  assert (Tsubs : t2 = []).
  { unfold decomposition in Hsubs. destruct (tool_calls resp) as [| tc rest];
      [now apply ret_ok_inv in Hsubs as (_ & _ & ->) |].
    destruct (String.eqb _ _); [| now apply ret_ok_inv in Hsubs as (_ & _ & ->)].
    invert_bind Hsubs as args w8 tr7 tr7' Hargs. apply ret_ok_inv in Hsubs as (_ & _ & ->).
    unfold json_loads in Hargs. destruct (function_arguments tc); [discriminate |].
    now apply ret_ok_inv in Hargs as (_ & _ & ->). }
  subst t2. rewrite Hf, Hsrc. split; [exact Hempty |]. split.
  - replace (all_sources acc.1) with (@nil string)
      by (symmetry; exact (all_sources_empty _ Hempty)).
    reflexivity.
  - rewrite Ht. rewrite !searched_app, !crawled_app, !generated_app, S4, C4, G4.
    repeat split.
Qed.

End Findings.

Lemma every_subtopic_has_findings_witness :
  exists rr w' t,
    research (E := env_twice) researcher2 5 "x" 0%nat = (Ok rr, w', t)
    /\ subcomponents rr = ["a"; "a"]
    /\ dict_keys (findings rr) = first_seen (subcomponents rr)
    /\ (forall s, s ∈ subcomponents rr -> exists reps, dict_get s (findings rr) = Some reps)
    /\ (forall s reps, (s, reps) ∈ findings rr -> s ∈ subcomponents rr).
Proof.
  eexists _, _, _. split; [vm_compute; reflexivity |]. split; [reflexivity |].
  eapply (every_subtopic_has_findings (E := env_twice) researcher2 5 "x" 0%nat).
  vm_compute. reflexivity.
Defined.

Lemma no_loops_no_findings_witness :
  exists rr w' t,
    research (E := env_twice) {| max_loops := 0; search_results_per_query := 5 |} 5 "x" 0%nat
    = (Ok rr, w', t)
    /\ dict_keys (findings rr) = ["a"]
    /\ Forall (fun item => item.2 = []) (findings rr)
    /\ sources rr = []
    /\ searched t = [] /\ crawled t = [] /\ generated t = [].
Proof.
  eexists _, _, _. split; [vm_compute; reflexivity |]. split; [reflexivity |].
  eapply (no_loops_no_findings (E := env_twice)
            {| max_loops := 0; search_results_per_query := 5 |} 5 "x" 0%nat).
  - simpl. lia.
  - vm_compute. reflexivity.
Defined.

(** ** The queries of a pass *)

Section Queries.

Context {E : Env} (self : CustomResearcher).

(** C3, as the code has it.  In a pass whose query-generation answer calls
    [generate_search_queries], the queries of the answer (none, when the
    key is missing) are all recorded and all searched, in the order given
    and whether or not the history already holds them: when the pass ends
    normally its searches are exactly these queries and the history has
    grown by exactly them.  Hence the searches of a run are exactly its
    [search_queries_used].  The history is only shown to the query
    generator; no query is skipped. *)
Theorem every_generated_query_is_searched (q : string) (v : loop_vars) (w : W E)
    (resp : response) (w1 : W E) (tc : tool_call) (rest : list tool_call)
    (args : tool_args) (p : pass) (w' : W E) (t : list event) :
  chat_tools E (GeneratePrompt q (knowledge_gaps v) (search_history v)) w = (inr resp, w1) ->
  tool_calls resp = tc :: rest ->
  function_name tc = "generate_search_queries" ->
  function_arguments tc = inr args ->
  loop_body self q v w = (Ok p, w', t) ->
  (searched t = default [] (queries args)
   /\ search_history (vars_of p) = search_history v ++ default [] (queries args))
  /\ (forall fuel q0 c (w0 : W E) res w0' t0,
        _research_subcomponent self fuel q0 c w0 = (Ok res, w0', t0) ->
        searched t0 = search_queries_used res).
Proof.
  intros Hresp Htc Hname Hargs H. split.
  - unfold loop_body in H.
    invert_bind H as resp' w2 tr0 tr0' Hcall.
    unfold _call_openai_with_tools in Hcall.
    apply external_ok_inv in Hcall as [Hcall ->].
    rewrite Hresp in Hcall. injection Hcall as <- <-.
    rewrite Htc, Hname in H. simpl in H.
    invert_bind H as args' w3 tr1 tr1' Hload.
    unfold json_loads in Hload. rewrite Hargs in Hload.
    apply ret_ok_inv in Hload as (<- & -> & ->).
    invert_bind H as found w4 tr2 tr2' Hfound.
    destruct (sat_run _ _ _ _ _ _ (for_queries_sat self q _ _) Hfound) as (_ & _ & Hok).
    destruct (Hok found eq_refl) as [Hsearched _].
    invert_bind H as resp2 w5 tr3 tr3' Hcall2.
    unfold _call_openai_with_tools in Hcall2.
    apply external_ok_inv in Hcall2 as [_ ->].
    assert (Hend : forall tail, searched tail = [] ->
              searched ([EvTools (GeneratePrompt q (knowledge_gaps v) (search_history v))]
                          ++ [] ++ tr2
                          ++ [EvTools (SufficiencyPrompt q (map relevant_info found))] ++ tail)
              = default [] (queries args)).
    { intros tail Htail. simpl. rewrite searched_app, Hsearched. simpl.
      rewrite Htail. apply app_nil_r. }
    destruct (tool_calls resp2) as [| tc2 rest2].
    { apply ret_ok_inv in H as (<- & _ & ->). split; [now apply Hend | reflexivity]. }
    destruct (String.eqb (function_name tc2) "create_final_report").
    2:{ apply ret_ok_inv in H as (<- & _ & ->). split; [now apply Hend | reflexivity]. }
    invert_bind H as args2 w6 tr4 tr4' Hload2.
    unfold json_loads in Hload2.
    destruct (function_arguments tc2) as [e | a2]; [discriminate |].
    apply ret_ok_inv in Hload2 as (<- & -> & ->).
    destruct (default false (has_sufficient_info a2));
      apply ret_ok_inv in H as (<- & _ & ->); (split; [now apply Hend | reflexivity]).
  - intros fuel q0 c w0 res w0' t0 Hrun.
    destruct (sat_run _ _ _ _ _ _ (research_subcomponent_sat self fuel q0 c) Hrun)
      as (_ & _ & Hok).
    destruct (Hok res eq_refl) as (_ & _ & _ & Hs). now rewrite Hs.
Qed.

End Queries.

Lemma every_generated_query_is_searched_witness :
  let v := {| all_reports := []; knowledge_gaps := ["gap"]; search_history := ["q"];
              count := 1 |} in
  exists p w' t,
    loop_body (E := env_same_query) researcher2 "topic" v 0%nat = (Ok p, w', t)
    /\ (searched t = ["q"] /\ search_history (vars_of p) = ["q"; "q"])
    /\ (forall fuel q0 c w0 res w0' t0,
          _research_subcomponent (E := env_same_query) researcher2 fuel q0 c w0
          = (Ok res, w0', t0) ->
          searched t0 = search_queries_used res).
Proof.
  intros v. eexists _, _, _. split; [vm_compute; reflexivity |].
  eapply (every_generated_query_is_searched (E := env_same_query) researcher2 "topic" v 0%nat
            (calls "generate_search_queries" (queries_args ["q"])) 1%nat
            {| function_name := "generate_search_queries";
               function_arguments := inr (queries_args ["q"]) |}
            [] (queries_args ["q"]));
    vm_compute; reflexivity.
Defined.

(** ** The sources of a report *)


Section Sources.

Context {E : Env} (self : CustomResearcher).



End Sources.


